(** * build.py: the container build orchestrator of jellyfin-packaging

    A shallow embedding of [build.py] and the properties of its
    specification.  The script is modelled as a program in a small
    state-and-exception monad: the state holds the trace of observable
    events (lines written by [log], commands handed to [os.system], files
    written) and the frame of list-valued local names of the running
    function; an exception stops the program as a Python exception does. *)

From Stdlib Require Import ZArith Ascii String List Bool Lia.
From stdpp Require Import base option strings gmap.
Import ListNotations.

Local Open Scope list_scope.
Local Open Scope string_scope.

(** ** Python strings *)

Module Py.

(** [needle in hay] on strings. *)
Fixpoint str_in (needle hay : string) : bool :=
  String.prefix needle hay ||
  match hay with
  | EmptyString => false
  | String _ hay' => str_in needle hay'
  end.

(** [s.replace(old, new)] for a pattern [old] of one character. *)
Fixpoint replace_char (old : ascii) (new : string) (s : string) : string :=
  match s with
  | EmptyString => EmptyString
  | String c s' =>
      if Ascii.eqb c old then new ++ replace_char old new s'
      else String c (replace_char old new s')
  end.

(** [sep.join(items)]. *)
Fixpoint join (sep : string) (items : list string) : string :=
  match items with
  | [] => ""
  | [x] => x
  | x :: rest => x ++ sep ++ join sep rest
  end.

(** [repr] of a string that holds no quote, backslash or control
    character, which is how the keys of [build.yaml] are written. *)
Definition repr (s : string) : string := "'" ++ s ++ "'".

(** [str] of an optional command-line argument: [None] prints as such. *)
Definition str_opt (o : option string) : string :=
  match o with
  | Some s => s
  | None => "None"
  end.

(** A string is held as its UTF-8 encoding; a byte [10xxxxxx] continues
    the character begun before it. *)
Definition continuation (c : ascii) : bool :=
  match c with
  | Ascii _ _ _ _ _ _ b6 b7 => b7 && negb b6
  end.

(** [s[:n]], the first [n] characters of [s]. *)
Fixpoint take (n : nat) (s : string) : string :=
  match s with
  | EmptyString => EmptyString
  | String c s' =>
      if continuation c then String c (take n s')
      else match n with
           | 0 => EmptyString
           | S n' => String c (take n' s')
           end
  end.

(** The types of the values, other than strings and [None], that the
    YAML loader builds. *)
Inductive type :=
| TBool | TInt | TFloat | TBytes | TDate | TDatetime | TList | TDict | TSet.

Definition type_name (t : type) : string :=
  match t with
  | TBool => "bool"
  | TInt => "int"
  | TFloat => "float"
  | TBytes => "bytes"
  | TDate => "datetime.date"
  | TDatetime => "datetime.datetime"
  | TList => "list"
  | TDict => "dict"
  | TSet => "set"
  end.

(** A value of the document of which the script asks more than its
    [str]: a string, [None] for a YAML null, or a value of another type,
    held with its [str] rendering. *)
Inductive value :=
| Str (s : string)
| Null
| Other (t : type) (rendering : string).

(** [str(v)], which is what an f-string puts in for [{v}]. *)
Definition str (v : value) : string :=
  match v with
  | Str s => s
  | Null => "None"
  | Other _ rendering => rendering
  end.

(** [v is None]. *)
Definition is_None (v : value) : bool :=
  match v with
  | Null => true
  | _ => false
  end.

(** A dict read from YAML keeps the order of the document; its keys are
    unique, and a lookup finds the first binding of the key. *)
Definition dict (V : Type) : Type := list (string * V).

Definition keys {V} (d : dict V) : list string := map fst d.

Fixpoint get {V} (d : dict V) (k : string) : option V :=
  match d with
  | [] => None
  | (k', v) :: d' => if String.eqb k k' then Some v else get d' k
  end.

(** [k in d.keys()], where [k] may be [None]. *)
Definition has_key {V} (d : dict V) (k : option string) : bool :=
  match k with
  | Some k => existsb (String.eqb k) (keys d)
  | None => false
  end.

(** [str(d.keys())]. *)
Definition str_keys {V} (d : dict V) : string :=
  "dict_keys([" ++ join ", " (map repr (keys d)) ++ "])".

End Py.

(** ** The configuration document *)

(** The document is taken in the shape of the repository's [build.yaml]:
    a mapping from the build types to mappings, in which [archmaps],
    [releases] and [cross-gcc] are mappings with strings for keys and an
    entry of [archmaps] is a mapping. *)

(** One entry of an [archmaps] table.  A field is [None] when the key is
    absent from the document.  [PACKAGE_ARCH] is tested against [None] by
    the builds of one artifact and is held as a value; the three other
    names are only ever put into f-strings and are held as their [str]
    rendering, which is [None] for a YAML null. *)
Record archmap := Archmap {
  PACKAGE_ARCH : option Py.value;
  DOTNET_ARCH : option string;
  QEMU_ARCH : option string;
  IMAGE_ARCH : option string
}.

(** The value of one build type.  The values of [releases] are tested
    against [None] and asked for their method [replace], and are held as
    values; the other scalars are only ever put into f-strings, or looked
    up in the table of build functions, and are held as their [str]
    rendering. *)
Record build_config := BuildConfig {
  dockerfile : option string;
  imagename : option string;
  archivetypes : option string;
  build_function : option string;
  archmaps : option (Py.dict archmap);
  releases : option (Py.dict Py.value);
  cross_gcc : option (Py.dict string)
}.

Definition configuration : Type := Py.dict build_config.

(** ** Exceptions, events and the program monad *)

(** [KeyError] carries the [repr] of the missing key, which is what [str]
    of the exception prints; [FormatError] stands for whatever
    [str.format] raises on a template it cannot fill. *)
Inductive exn :=
| NameError (name : string)
| KeyError (key_repr : string)
| ValueError (msg : string)
| TypeError (msg : string)
| AttributeError (msg : string)
| OSError (msg : string)
| FormatError (msg : string)
| SystemExit (code : Z).

(** [str(e)] as printed by the handlers of the script. *)
Definition str_exn (e : exn) : string :=
  match e with
  | NameError n => "name " ++ Py.repr n ++ " is not defined"
  | KeyError k => k
  | ValueError m => m
  | TypeError m => m
  | AttributeError m => m
  | OSError m => m
  | FormatError m => m
  | SystemExit _ => ""
  end.

(** [except Exception] does not catch [SystemExit]. *)
Definition is_Exception (e : exn) : bool :=
  match e with
  | SystemExit _ => false
  | _ => true
  end.

Inductive event :=
| Log (line : string)
| System (cmd : string)
| WriteFile (path content : string).

(** The value of a name: the script's accumulators are lists of strings,
    every other object is opaque here. *)
Inductive pyval :=
| PyList (items : list string)
| PyObj.

Record world := World {
  trace : list event;
  frame : gmap string pyval
}.

Inductive result (A : Type) :=
| Ok (a : A)
| Raise (e : exn).
Arguments Ok {A} a.
Arguments Raise {A} e.

Definition M (A : Type) : Type := world -> result A * world.

Definition ret {A} (a : A) : M A := fun w => (Ok a, w).

Definition raise {A} (e : exn) : M A := fun w => (Raise e, w).

Definition bind {A B} (m : M A) (k : A -> M B) : M B :=
  fun w =>
    match m w with
    | (Ok a, w') => k a w'
    | (Raise e, w') => (Raise e, w')
    end.

(** [try: body / except Exception as e: handler e]. *)
Definition try_except {A} (body : M A) (handler : exn -> M A) : M A :=
  fun w =>
    match body w with
    | (Ok a, w') => (Ok a, w')
    | (Raise e, w') => if is_Exception e then handler e w' else (Raise e, w')
    end.

Declare Scope prog_scope.
Delimit Scope prog_scope with prog.
Notation "x <- m ;; k" := (bind m (fun x => k))
  (at level 100, m at next level, right associativity) : prog_scope.
Notation "m ;; k" := (bind m (fun _ => k))
  (at level 100, right associativity) : prog_scope.
Local Open Scope prog_scope.

Fixpoint for_each {A} (xs : list A) (body : A -> M unit) : M unit :=
  match xs with
  | [] => ret tt
  | x :: xs' => body x ;; for_each xs' body
  end.

Definition emit (e : event) : M unit :=
  fun w => (Ok tt, World (trace w ++ [e]) (frame w)).

(** [log(message)]. *)
Definition log (message : string) : M unit := emit (Log message).

(** [exit(code)]. *)
Definition exit {A} (code : Z) : M A := raise (SystemExit code).

(** [d[k]] on a dict, and the subscript of a key that the record of a
    build type or of an architecture holds as a field. *)
Definition subscript {V} (d : Py.dict V) (k : string) : M V :=
  match Py.get d k with
  | Some v => ret v
  | None => raise (KeyError (Py.repr k))
  end.

Definition field {V} (name : string) (v : option V) : M V :=
  match v with
  | Some v => ret v
  | None => raise (KeyError (Py.repr name))
  end.

(** [d[k]] where [k] may be [None], which is never a key. *)
Definition subscript_opt {V} (d : Py.dict V) (k : option string) : M V :=
  match k with
  | Some k => subscript d k
  | None => raise (KeyError "None")
  end.

(** ** The surroundings of a run *)

(** What the script reads from outside: the parsed [build.yaml], the root
    of the repository, the clock in the three formats the script asks
    for, the changelog template on disk, [str.format] on that template,
    and the container engine, which answers every command with an exit
    status that may depend on all that happened before. *)
Record env := Env {
  configurations : configuration;
  repo_root_dir : string;
  now_hour : string;
  now_stamp : string;
  now_rfc2822 : string;
  read_file : string -> option string;
  format_changelog : string -> string -> string -> string -> string -> option string;
  engine : list event -> string -> Z
}.

(** The two module-level names that the build functions read without
    receiving them as parameters. *)
Record globals := Globals {
  global_build_arch : option string;
  global_build_version : option string
}.

(** Every name bound in the module's namespace when a build function runs. *)
Definition module_names : list string :=
  [ "datetime"; "format_datetime"; "localtime"; "os"; "run"; "PIPE"; "sys";
    "load"; "SafeLoader"; "revparse"; "repo_root_dir"; "docker_build_cmd";
    "docker_run_cmd"; "log"; "fh"; "configurations"; "build_package_deb";
    "build_package_rpm"; "build_linux"; "build_windows"; "build_macos";
    "build_portable"; "build_docker"; "usage"; "function_definitions";
    "jellyfin_version"; "build_type"; "build_arch"; "build_version" ].

(** Reading a name: the frame of the function first, then the module;
    Python looks into the builtins last, and none of the names that the
    script reads this way is one of them. *)
Definition load_name (x : string) : M pyval :=
  fun w =>
    match frame w !! x with
    | Some v => (Ok v, w)
    | None =>
        if existsb (String.eqb x) module_names then (Ok PyObj, w)
        else (Raise (NameError x), w)
    end.

Definition store_name (x : string) (v : pyval) : M unit :=
  fun w => (Ok tt, World (trace w) (<[x := v]> (frame w))).

(** The items of a value that a [for] loop or [join] walks over. *)
Definition items_of (v : pyval) : M (list string) :=
  match v with
  | PyList l => ret l
  | PyObj => raise (TypeError "object is not iterable")
  end.

Definition load_list (x : string) : M (list string) :=
  v <- load_name x ;; items_of v.

(** [x.append(item)]: the list bound to [x] grows in place. *)
Definition append_to (x : string) (item : string) : M unit :=
  l <- load_list x ;; store_name x (PyList (l ++ [item])).

Definition docker_build_cmd : string := "docker build --progress=plain --no-cache".
Definition docker_run_cmd : string := "docker run --rm".

(** ** Versions and messages *)

(** The comment [build_package_deb] puts into the changelog. *)
Definition release_comment (jellyfin_version : string) : string :=
  if Py.str_in "v" jellyfin_version
  then "Jellyfin release " ++ jellyfin_version
       ++ ", see https://github.com/jellyfin/jellyfin/releases/" ++ jellyfin_version
       ++ " for details."
  else "Jellyin unstable release " ++ jellyfin_version ++ ".".

(** [jellyfin_version.replace("v", "")], the statement with which every
    build function turns the version it receives into the one it uses. *)
Definition strip_release_marker (jellyfin_version : string) : string :=
  Py.replace_char "v" "" jellyfin_version.

(** The three flags [(is_latest, is_unstable, version_suffix)] that
    [build_docker] sets from the version it receives. *)
Definition release_flags (jellyfin_version : string) : bool * bool * bool :=
  if Py.str_in "v" jellyfin_version then (true, false, true) else (false, true, false).

(** The first line printed for a build type that is not in the document,
    and the two lines printed for a build type without a usable build
    function. *)
Definition invalid_build_type_message (build_type : string) : string :=
  "Error: The specified build type '" ++ build_type ++ "' is not valid".

Definition misconfiguration_message (build_type : string) : list string :=
  [ "Error: The specified valid build type '" ++ build_type
      ++ "' does not define a valid build function";
    "This is a misconfiguration of the YAML or the build script; please report a bug!" ].

(** The [ValueError] texts of the two argument checks, and the line the
    handler prints for an exception of text [text]. *)
Definition invalid_version_text (build_type : string) (build_version : option string)
    (rel : Py.dict Py.value) : string :=
  Py.str_opt build_version ++ " is not a valid " ++ build_type
  ++ " version in " ++ Py.str_keys rel.

Definition invalid_arch_text (build_type : string) (build_arch build_version : option string)
    (am : Py.dict archmap) : string :=
  Py.str_opt build_arch ++ " is not a valid " ++ build_type ++ " "
  ++ Py.str_opt build_version ++ " architecture in " ++ Py.str_keys am.

Definition invalid_arguments_message (text : string) : string :=
  "Invalid/unsupported arguments: " ++ text.

(** The commands of the container image build, as the f-strings of
    [build_docker] spell them. *)
Definition qemu_reset_command : string :=
  docker_run_cmd ++ " --privileged multiarch/qemu-user-static:register --reset".

Definition image_build_command (root dockerfile jellyfin_version imagename : string)
    (package_arch dotnet_arch qemu_arch image_arch : string) : string :=
  docker_build_cmd ++ " --build-arg PACKAGE_ARCH=" ++ package_arch
  ++ " --build-arg DOTNET_ARCH=" ++ dotnet_arch
  ++ " --build-arg QEMU_ARCH=" ++ qemu_arch
  ++ " --build-arg IMAGE_ARCH=" ++ image_arch
  ++ " --build-arg JELLYFIN_VERSION=" ++ jellyfin_version
  ++ " --file " ++ root ++ "/" ++ dockerfile
  ++ " --tag " ++ imagename ++ " " ++ root.

Definition ghcr_reference (imagename : string) : string := "ghcr.io/" ++ imagename.

Definition image_tag_command (imagename : string) : string :=
  "docker image tag " ++ imagename ++ " " ++ ghcr_reference imagename.

Definition image_push_command (image : string) : string :=
  "docker push " ++ image ++ " 2>&1".

Definition manifest_create_command (host base tag : string) (images : list string) : string :=
  "docker manifest create " ++ host ++ "/" ++ base ++ ":" ++ tag ++ " " ++ Py.join " " images.

Definition manifest_push_command (host manifest : string) : string :=
  "docker manifest push --purge " ++ host ++ "/" ++ manifest ++ " 2>&1".

(** ** The script *)

Section Script.

Variable E : env.

Let cfgs : configuration := configurations E.
Let root : string := repo_root_dir E.

(** [os.system(cmd)]: the command is handed to the shell and its exit
    status comes back. *)
Definition os_system (cmd : string) : M Z :=
  fun w => (Ok (engine E (trace w) cmd), World (trace w ++ [System cmd]) (frame w)).

(** [open(path).read()] and [open(path, "w").write(content)]. *)
Definition open_read (path : string) : M string :=
  match read_file E path with
  | Some content => ret content
  | None => raise (OSError ("No such file or directory: " ++ Py.repr path))
  end.

Definition open_write (path content : string) : M unit :=
  emit (WriteFile path content).

Definition str_format (template version build comment date : string) : M string :=
  match format_changelog E template version build comment date with
  | Some text => ret text
  | None => raise (FormatError template)
  end.

(** [x if x is not None else raise e]. *)
Definition or_raise {A} (o : option A) (e : exn) : M A :=
  match o with
  | Some a => ret a
  | None => raise e
  end.

(** [if v is None: raise e], after which [v] is used. *)
Definition not_None (v : Py.value) (e : exn) : M Py.value :=
  if Py.is_None v then raise e else ret v.

(** [v.replace(old, new)] is the method of a string.  Numbers, booleans,
    lists, dicts, sets and [None] have no attribute of that name; bytes
    and dates have one, which refuses two strings as its arguments. *)
Definition replace_refused (t : Py.type) : exn :=
  match t with
  | Py.TBytes => TypeError "a bytes-like object is required, not 'str'"
  | Py.TDate | Py.TDatetime => TypeError "'str' object cannot be interpreted as an integer"
  | _ => AttributeError ("'" ++ Py.type_name t ++ "' object has no attribute 'replace'")
  end.

Definition replace_method (v : Py.value) (old : ascii) (new : string) : M string :=
  match v with
  | Py.Str s => ret (Py.replace_char old new s)
  | Py.Null => raise (AttributeError "'NoneType' object has no attribute 'replace'")
  | Py.Other t _ => raise (replace_refused t)
  end.

Section Functions.

Variable G : globals.

Definition build_package_deb (jellyfin_version build_type : string)
    (build_arch build_version : option string) : M unit :=
  log ("> Building an " ++ Py.str_opt build_arch ++ " " ++ build_type ++ " .deb package...") ;;
  log "" ;;
  checked <- try_except
    (os_type <- or_raise
       (if Py.has_key cfgs (Some build_type) then Some build_type else None)
       (ValueError (build_type ++ " is not a valid OS type in " ++ Py.str_keys cfgs)) ;;
     c <- subscript cfgs build_type ;;
     rel <- field "releases" (releases c) ;;
     os_version <- (if Py.has_key rel build_version
                    then subscript_opt rel build_version
                    else ret Py.Null) ;;
     os_version <- not_None os_version
       (ValueError (invalid_version_text build_type build_version rel)) ;;
     am <- field "archmaps" (archmaps c) ;;
     package_arch <- (if Py.has_key am build_arch
                      then a <- subscript_opt am build_arch ;;
                           field "PACKAGE_ARCH" (PACKAGE_ARCH a)
                      else ret Py.Null) ;;
     package_arch <- not_None package_arch
       (ValueError (invalid_arch_text build_type build_arch build_version am)) ;;
     ret (os_type, os_version, package_arch))
    (fun e => log (invalid_arguments_message (str_exn e)) ;; exit 1) ;;
  let '(os_type, os_version, package_arch) := checked in
  c <- subscript cfgs build_type ;;
  dockerfile <- field "dockerfile" (dockerfile c) ;;
  gcc <- field "cross-gcc" (cross_gcc c) ;;
  crossgccvers <- subscript_opt gcc build_version ;;
  let changelog_src := root ++ "/debian/changelog.in" in
  let changelog_dst := root ++ "/debian/changelog" in
  changelog <- open_read changelog_src ;;
  let comment :=
    if Py.str_in "v" jellyfin_version
    then "Jellyfin release " ++ jellyfin_version
         ++ ", see https://github.com/jellyfin/jellyfin/releases/" ++ jellyfin_version
         ++ " for details."
    else "Jellyin unstable release " ++ jellyfin_version ++ "." in
  let jellyfin_version := strip_release_marker jellyfin_version in
  undotted <- replace_method os_version "." "" ;;
  changelog <- str_format changelog jellyfin_version
                 (Py.take 3 build_type ++ undotted) comment (now_rfc2822 E) ;;
  open_write changelog_dst changelog ;;
  base <- field "imagename" (imagename c) ;;
  let imagename := base ++ "-" ++ jellyfin_version ++ "_" ++ Py.str_opt build_arch
                   ++ "-" ++ build_type ++ "-" ++ Py.str_opt build_version in
  os_system (docker_build_cmd ++ " --build-arg PACKAGE_TYPE=" ++ os_type
             ++ " --build-arg PACKAGE_VERSION=" ++ Py.str os_version
             ++ " --build-arg PACKAGE_ARCH=" ++ Py.str package_arch
             ++ " --build-arg GCC_VERSION=" ++ crossgccvers
             ++ " --file " ++ root ++ "/" ++ dockerfile
             ++ " --tag " ++ imagename ++ " " ++ root) ;;
  os_system (docker_run_cmd ++ " --volume " ++ root ++ ":/jellyfin --volume " ++ root
             ++ "/out/" ++ build_type ++ ":/dist --env JELLYFIN_VERSION=" ++ jellyfin_version
             ++ " --name " ++ imagename ++ " " ++ imagename) ;;
  ret tt.

Definition build_package_rpm (jellyfin_version build_type : string)
    (build_arch build_version : option string) : M unit :=
  log ("> Building an " ++ Py.str_opt build_arch ++ " " ++ build_type ++ " .rpm package...") ;;
  log "" ;;
  ret tt.

(** The argument check shared, statement for statement, by the three
    portable archive builders; [build_arch] is the parameter in
    [build_linux] and [build_macos] and the module's name in
    [build_windows], [build_version] is the module's name in all three. *)
Definition check_archive_arch (build_type : string) (build_arch : option string)
  : M (Py.value * string) :=
  try_except
    (c <- subscript cfgs build_type ;;
     am <- field "archmaps" (archmaps c) ;;
     package_arch <- (if Py.has_key am build_arch
                      then a <- subscript_opt am build_arch ;;
                           field "PACKAGE_ARCH" (PACKAGE_ARCH a)
                      else ret Py.Null) ;;
     package_arch <- not_None package_arch
       (ValueError (invalid_arch_text build_type build_arch (global_build_version G) am)) ;;
     a <- subscript_opt am build_arch ;;
     dotnet_arch <- field "DOTNET_ARCH" (DOTNET_ARCH a) ;;
     ret (package_arch, dotnet_arch))
    (fun e => log (invalid_arguments_message (str_exn e)) ;; exit 1).

(** The two container commands of a portable archive build, which differ
    between the three builders in the value of [DOTNET_TYPE] only. *)
Definition archive_commands (dotnet_type jellyfin_version build_type : string)
    (build_arch : option string) (package_arch : Py.value) (dotnet_arch : string)
  : M unit :=
  let jellyfin_version := strip_release_marker jellyfin_version in
  c <- subscript cfgs build_type ;;
  dockerfile <- field "dockerfile" (dockerfile c) ;;
  base <- field "imagename" (imagename c) ;;
  let imagename := base ++ "-" ++ jellyfin_version ++ "_" ++ Py.str_opt build_arch
                   ++ "-" ++ build_type in
  archivetypes <- field "archivetypes" (archivetypes c) ;;
  os_system (docker_build_cmd ++ " --file " ++ root ++ "/" ++ dockerfile
             ++ " --tag " ++ imagename ++ " " ++ root) ;;
  os_system (docker_run_cmd ++ " --volume " ++ root ++ ":/jellyfin --volume " ++ root
             ++ "/out/" ++ build_type ++ ":/dist --env JELLYFIN_VERSION=" ++ jellyfin_version
             ++ " --env BUILD_TYPE=" ++ build_type
             ++ " --env PACKAGE_ARCH=" ++ Py.str package_arch
             ++ " --env DOTNET_TYPE=" ++ dotnet_type
             ++ " --env DOTNET_ARCH=" ++ dotnet_arch
             ++ " --env ARCHIVE_TYPES=" ++ archivetypes
             ++ " --name " ++ imagename ++ " " ++ imagename) ;;
  ret tt.

Definition build_linux (jellyfin_version build_type : string)
    (build_arch _build_version : option string) : M unit :=
  log ("> Building a portable " ++ Py.str_opt build_arch ++ " Linux archive...") ;;
  log "" ;;
  archs <- check_archive_arch build_type build_arch ;;
  archive_commands "linux" jellyfin_version build_type build_arch (fst archs) (snd archs).

Definition build_windows (jellyfin_version build_type : string)
    (_build_arch _build_version : option string) : M unit :=
  let build_arch := global_build_arch G in
  log ("> Building a portable " ++ Py.str_opt build_arch ++ " Windows archive...") ;;
  log "" ;;
  archs <- check_archive_arch build_type build_arch ;;
  archive_commands "win" jellyfin_version build_type build_arch (fst archs) (snd archs).

Definition build_macos (jellyfin_version build_type : string)
    (build_arch _build_version : option string) : M unit :=
  log ("> Building a portable " ++ Py.str_opt build_arch ++ " MacOS archive...") ;;
  log "" ;;
  archs <- check_archive_arch build_type build_arch ;;
  archive_commands "osx" jellyfin_version build_type build_arch (fst archs) (snd archs).

Definition build_portable (jellyfin_version build_type : string)
    (_build_arch _build_version : option string) : M unit :=
  log "> Building a portable .NET archive..." ;;
  log "" ;;
  let jellyfin_version := strip_release_marker jellyfin_version in
  c <- subscript cfgs build_type ;;
  dockerfile <- field "dockerfile" (dockerfile c) ;;
  base <- field "imagename" (imagename c) ;;
  let imagename := base ++ "-" ++ jellyfin_version ++ "_" ++ build_type in
  archivetypes <- field "archivetypes" (archivetypes c) ;;
  os_system (docker_build_cmd ++ " --file " ++ root ++ "/" ++ dockerfile
             ++ " --tag " ++ imagename ++ " " ++ root) ;;
  os_system (docker_run_cmd ++ " --volume " ++ root ++ ":/jellyfin --volume " ++ root
             ++ "/out/" ++ build_type ++ ":/dist --env JELLYFIN_VERSION=" ++ jellyfin_version
             ++ " --env BUILD_TYPE=" ++ build_type
             ++ " --env ARCHIVE_TYPES=" ++ archivetypes
             ++ " --name " ++ imagename ++ " " ++ imagename) ;;
  ret tt.

(** [configurations["docker"]["archmaps"]] and
    [configurations['docker']['imagename']]. *)
Definition docker_archmaps : M (Py.dict archmap) :=
  d <- subscript cfgs "docker" ;; field "archmaps" (archmaps d).

Definition docker_imagename : M string :=
  d <- subscript cfgs "docker" ;; field "imagename" (imagename d).

(** The name under which the image of one architecture is tagged. *)
Definition docker_tag (version_suffix : bool) (base jellyfin_version arch date : string)
  : string :=
  if version_suffix
  then base ++ ":" ++ jellyfin_version ++ "-" ++ arch ++ "." ++ date
  else base ++ ":" ++ jellyfin_version ++ "-" ++ arch.

(** The body of the loop over the architectures. *)
Definition docker_build_image (version_suffix : bool)
    (jellyfin_version dockerfile date _build_arch : string) : M unit :=
  log (">> Building Docker image for " ++ _build_arch ++ "...") ;;
  log "" ;;
  am <- docker_archmaps ;;
  a <- subscript am _build_arch ;;
  package_arch <- field "PACKAGE_ARCH" (PACKAGE_ARCH a) ;;
  dotnet_arch <- field "DOTNET_ARCH" (DOTNET_ARCH a) ;;
  qemu_arch <- field "QEMU_ARCH" (QEMU_ARCH a) ;;
  image_arch <- field "IMAGE_ARCH" (IMAGE_ARCH a) ;;
  base <- docker_imagename ;;
  let imagename := docker_tag version_suffix base jellyfin_version _build_arch date in
  log (">>> " ++ qemu_reset_command) ;;
  os_system qemu_reset_command ;;
  log "" ;;
  let build := image_build_command root dockerfile jellyfin_version imagename
                 (Py.str package_arch) dotnet_arch qemu_arch image_arch in
  log (">>> " ++ build) ;;
  os_system build ;;
  append_to "images" imagename ;;
  os_system (image_tag_command imagename) ;;
  append_to "images_ghcr" (ghcr_reference imagename) ;;
  log "".

(** The body of the two loops that push the images. *)
Definition docker_push_image (registry image : string) : M unit :=
  log (">>> Pushing image " ++ image ++ " to " ++ registry) ;;
  log (">>>> " ++ image_push_command image) ;;
  os_system (image_push_command image) ;;
  ret tt.

(** One block of the manifest section: the manifest of tag [tag] is
    created against both registries and its name is kept for the push. *)
Definition docker_create_manifest (banner tag : string) : M unit :=
  log banner ;;
  base <- docker_imagename ;;
  images <- load_list "images" ;;
  log (">>>> docker manifest create " ++ base ++ ":" ++ tag ++ " " ++ Py.join " " images) ;;
  base <- docker_imagename ;;
  images <- load_list "images" ;;
  os_system (manifest_create_command "docker.io" base tag images) ;;
  base <- docker_imagename ;;
  images_ghcr <- load_list "images_ghcr" ;;
  os_system (manifest_create_command "ghcr.io" base tag images_ghcr) ;;
  base <- docker_imagename ;;
  append_to "manifests" (base ++ ":" ++ tag).

(** The manifest section, from [manifests = list()] to the last append. *)
Definition docker_build_manifests (is_latest is_unstable version_suffix : bool)
    (jellyfin_version date : string) : M unit :=
  log ">> Building Docker manifests..." ;;
  store_name "manifests" (PyList []) ;;
  (if version_suffix
   then docker_create_manifest ">>> Building dated version manifest..."
          (jellyfin_version ++ "." ++ date)
   else ret tt) ;;
  docker_create_manifest ">>> Building version manifest..." jellyfin_version ;;
  (if is_latest
   then docker_create_manifest ">>> Building latest manifest..." "latest"
   else if is_unstable
   then docker_create_manifest ">>> Building unstable manifest..." "unstable"
   else ret tt).

(** The body of the two loops that push the manifests. *)
Definition docker_push_manifest (registry host manifest : string) : M unit :=
  log (">>> Pushing manifest " ++ manifest ++ " to " ++ registry) ;;
  log (">>>> " ++ manifest_push_command host manifest) ;;
  os_system (manifest_push_command host manifest) ;;
  ret tt.

Definition build_docker (jellyfin_version build_type : string)
    (_build_arch _build_version : option string) : M unit :=
  log "> Building Docker images..." ;;
  log "" ;;
  am <- docker_archmaps ;;
  let architectures := Py.keys am in
  c <- subscript cfgs build_type ;;
  dockerfile <- field "dockerfile" (dockerfile c) ;;
  let '(is_latest, is_unstable, version_suffix) := release_flags jellyfin_version in
  let jellyfin_version := strip_release_marker jellyfin_version in
  let date := now_stamp E in
  store_name "images" (PyList []) ;;
  store_name "images_ghcr" (PyList []) ;;
  for_each architectures
    (docker_build_image version_suffix jellyfin_version dockerfile date) ;;
  os_system "docker login 2>&1" ;;
  images <- load_list "images" ;;
  for_each images (docker_push_image "DockerHub") ;;
  ghcr_images <- load_list "ghcr_images" ;;
  for_each ghcr_images (docker_push_image "GHCR") ;;
  docker_build_manifests is_latest is_unstable version_suffix jellyfin_version date ;;
  manifests <- load_list "manifests" ;;
  for_each manifests (docker_push_manifest "DockerHub" "docker.io") ;;
  manifests <- load_list "manifests" ;;
  for_each manifests (docker_push_manifest "GHCR" "ghcr.io").

(** The table of build functions, as the dict literal lists them. *)
Definition function_definitions
  : Py.dict (string -> string -> option string -> option string -> M unit) :=
  [ ("build_package_deb", build_package_deb);
    ("build_package_rpm", build_package_rpm);
    ("build_portable", build_portable);
    ("build_linux", build_linux);
    ("build_windows", build_windows);
    ("build_macos", build_macos);
    ("build_portable", build_portable);
    ("build_docker", build_docker) ].

End Functions.

(** [usage()]; [sys.argv[0]] is the name of the script. *)
Definition usage (argv : list string) : M unit :=
  log (hd "" argv ++ " JELLYFIN_VERSION BUILD_TYPE [BUILD_ARCH] [BUILD_VERSION]") ;;
  log "  JELLYFIN_VERSION: The Jellyfin version being built" ;;
  log "    * Stable releases should be tag names with a 'v' e.g. v10.9.0" ;;
  log "    * Unstable releases should be 'master' or a date-to-the-hour version e.g. 2024021600" ;;
  log "  BUILD_TYPE: The type of build to execute" ;;
  log ("    * Valid options are: " ++ Py.join ", " (Py.keys cfgs)) ;;
  log "  BUILD_ARCH: The CPU architecture of the build" ;;
  log "    * Valid options are: <empty> [portable/docker only], amd64, arm64, armhf" ;;
  log "  BUILD_VERSION: A valid OS distribution version (.deb/.rpm build types only)".

(** The module body from the reading of [sys.argv] to the call of the
    build function. *)
Definition main (argv : list string) : M unit :=
  match argv with
  | _ :: jellyfin_version :: build_type :: rest =>
      let G := Globals (nth_error rest 0) (nth_error rest 1) in
      (if Py.has_key cfgs (Some build_type) then ret tt
       else
         log (invalid_build_type_message build_type) ;;
         log "" ;;
         usage argv ;;
         exit 1) ;;
      try_except
        (c <- subscript cfgs build_type ;;
         f <- field "build_function" (build_function c) ;;
         if Py.has_key (function_definitions G) (Some f) then ret tt
         else raise (ValueError ""))
        (fun _ => for_each (misconfiguration_message build_type) log ;; exit 1) ;;
      let build_arch := global_build_arch G in
      let build_version := global_build_version G in
      jellyfin_version <-
        (if String.eqb jellyfin_version "master"
         then
           let jellyfin_version := now_hour E in
           log ("NOTE: Autocorrecting 'master' version to " ++ jellyfin_version) ;;
           ret jellyfin_version
         else ret jellyfin_version) ;;
      c <- subscript cfgs build_type ;;
      f <- field "build_function" (build_function c) ;;
      build <- subscript (function_definitions G) f ;;
      build jellyfin_version build_type build_arch build_version
  | _ =>
      log "Error: Missing required arguments ('JELLYFIN_VERSION' and/or 'BUILD_TYPE')" ;;
      log "" ;;
      usage argv ;;
      exit 1
  end.

End Script.

(** ** A run of the script *)

(** The same surroundings with another container engine. *)
Definition with_engine (engine' : list event -> string -> Z) (E : env) : env :=
  Env (configurations E) (repo_root_dir E) (now_hour E) (now_stamp E) (now_rfc2822 E)
    (read_file E) (format_changelog E) engine'.

(** The same surroundings, in which the changelog is filled with the
    release comment [comment] whatever comment [str.format] is handed. *)
Definition with_release_comment (comment : string) (E : env) : env :=
  Env (configurations E) (repo_root_dir E) (now_hour E) (now_stamp E) (now_rfc2822 E)
    (read_file E)
    (fun template version build _ date =>
       format_changelog E template version build comment date)
    (engine E).


(** The script starts with nothing printed and no local name bound. *)
Definition start : world := World [] ∅.

Definition run (E : env) (argv : list string) : result unit * world :=
  main E argv start.

(** The exit status of the interpreter: 0 when the module body ends, the
    argument of [exit], and 1 when an exception reaches the top. *)
Definition exit_status (r : result unit) : Z :=
  match r with
  | Ok _ => 0
  | Raise (SystemExit code) => code
  | Raise _ => 1
  end.

(** The commands handed to the shell, in order. *)
Fixpoint commands (t : list event) : list string :=
  match t with
  | [] => []
  | System cmd :: t' => cmd :: commands t'
  | _ :: t' => commands t'
  end.

(** The lines printed, in order. *)
Fixpoint printed (t : list event) : list string :=
  match t with
  | [] => []
  | Log line :: t' => line :: printed t'
  | _ :: t' => printed t'
  end.

(** ** The call of the build function *)

(** The world in which the build function is entered, the note on
    [master] being the only line printed before, and the version the
    function is handed. *)
Definition master_note (E : env) (version : string) : list string :=
  if String.eqb version "master"
  then ["NOTE: Autocorrecting 'master' version to " ++ now_hour E]
  else [].

Definition at_call (E : env) (version : string) : world :=
  World (map Log (master_note E version)) ∅.

Definition version_handed (E : env) (version : string) : string :=
  if String.eqb version "master" then now_hour E else version.

(** What a build of one artifact leaves behind: either it issued no
    command, or it returned after exactly an image build and a container
    run. *)
Definition build_then_run (w : world) (rw : result unit * world) : Prop :=
  commands (trace (snd rw)) = commands (trace w)
  \/ (fst rw = Ok tt
      /\ exists b c : string,
           commands (trace (snd rw))
           = (commands (trace w)
              ++ [(docker_build_cmd ++ b)%string; (docker_run_cmd ++ c)%string])%list).

(** The statements of [build_docker] that follow the loop over
    [ghcr_images], lines 362 to 428, taken alone. *)
Definition docker_publish_manifests (E : env) (is_latest is_unstable version_suffix : bool)
    (jellyfin_version date : string) : M unit :=
  docker_build_manifests E is_latest is_unstable version_suffix jellyfin_version date ;;
  manifests <- load_list "manifests" ;;
  for_each manifests (docker_push_manifest E "DockerHub" "docker.io") ;;
  manifests <- load_list "manifests" ;;
  for_each manifests (docker_push_manifest E "GHCR" "ghcr.io").

(** ** The plan of a container image run *)

(** The four architecture names of an entry of [archmaps], as the
    f-strings of [build_docker] render them, when the entry holds them
    all. *)
Definition arch_fields (a : archmap) : option (string * string * string * string) :=
  match PACKAGE_ARCH a, DOTNET_ARCH a, QEMU_ARCH a, IMAGE_ARCH a with
  | Some p, Some d, Some q, Some i => Some (Py.str p, d, q, i)
  | _, _, _, _ => None
  end.

(** What [build_docker] reads from the document for one architecture and
    for the whole run: the image name, the dockerfile of the build type
    and, in the order of the document, every architecture of the
    [docker] build type with its four names.  The plan exists when the
    document holds every key that [build_docker] subscripts. *)
Definition arch_plan : Type := string * (string * string * string * string).

Definition plan_arch (am : Py.dict archmap) (arch : string) : option arch_plan :=
  match Py.get am arch with
  | Some a =>
      match arch_fields a with
      | Some names => Some (arch, names)
      | None => None
      end
  | None => None
  end.

Record docker_plan := DockerPlan {
  plan_base : string;
  plan_dockerfile : string;
  plan_archs : list arch_plan
}.

Definition plan_docker (E : env) (build_type : string) : option docker_plan :=
  match Py.get (configurations E) "docker", Py.get (configurations E) build_type with
  | Some d, Some c =>
      match archmaps d, imagename d, dockerfile c with
      | Some am, Some base, Some df =>
          match mapM (plan_arch am) (Py.keys am) with
          | Some archs => Some (DockerPlan base df archs)
          | None => None
          end
      | _, _, _ => None
      end
  | _, _ => None
  end.

Section Plan.

Variables (E : env) (p : docker_plan) (version : string).

(** The tag of the image of an architecture, under the first registry
    and under the second. *)
Definition plan_image (a : arch_plan) : string :=
  docker_tag (Py.str_in "v" version) (plan_base p) (strip_release_marker version)
    (fst a) (now_stamp E).

Definition plan_images : list string := map plan_image (plan_archs p).

Definition plan_images_ghcr : list string := map ghcr_reference plan_images.

(** The three commands of the loop for one architecture. *)
Definition plan_build_commands (a : arch_plan) : list string :=
  let '(_, (package_arch, dotnet_arch, qemu_arch, image_arch)) := a in
  [ qemu_reset_command;
    image_build_command (repo_root_dir E) (plan_dockerfile p)
      (strip_release_marker version) (plan_image a)
      package_arch dotnet_arch qemu_arch image_arch;
    image_tag_command (plan_image a) ].

End Plan.

(** The architectures that the document declares for the [docker]
    build type, in its order. *)
Definition docker_architectures (E : env) : list string :=
  match Py.get (configurations E) "docker" with
  | Some d =>
      match archmaps d with
      | Some am => Py.keys am
      | None => []
      end
  | None => []
  end.

(** Following the specification: the tags of the manifests of a run, the
    dated one, the one of the version and [latest] for a stable version,
    the one of the version and [unstable] otherwise; and the names under
    which they are pushed. *)
Definition manifest_tags (E : env) (version : string) : list string :=
  if Py.str_in "v" version
  then [ strip_release_marker version ++ "." ++ now_stamp E;
         strip_release_marker version; "latest" ]
  else [ strip_release_marker version; "unstable" ].

Definition plan_manifests (E : env) (p : docker_plan) (version : string) : list string :=
  map (fun tag => plan_base p ++ ":" ++ tag) (manifest_tags E version).

(** A command that creates or pushes a manifest; one that pushes an
    image, one that creates a manifest and one that pushes a manifest. *)
Definition manifest_command (cmd : string) : bool := String.prefix "docker manifest" cmd.



(** A world of a container image run before the loop over
    [ghcr_images]: that name is not bound and no manifest command has
    been issued. *)
Definition before_manifests (w : world) : Prop :=
  frame w !! "ghcr_images" = None
  /\ Forall (fun cmd => manifest_command cmd = false) (commands (trace w)).

(** A step from such a world leads to such a world, or stops on an
    exception of class [Exception] with no manifest command issued. *)
Definition stays_before_manifests {A} (rw : result A * world) : Prop :=
  match rw with
  | (Ok _, w') => before_manifests w'
  | (Raise e, w') =>
      is_Exception e = true
      /\ Forall (fun cmd => manifest_command cmd = false) (commands (trace w'))
  end.

(** ** The readings of the specification *)

(** The identifiers of the table of build functions; the build functions
    that build one artifact with one image build and one container run;
    the ones that have a body, [build_package_rpm] being declared with
    [pass] alone. *)
Definition function_names : list string :=
  [ "build_package_deb"; "build_package_rpm"; "build_portable"; "build_linux";
    "build_windows"; "build_macos"; "build_portable"; "build_docker" ].

Definition in_table (f : string) : bool := existsb (String.eqb f) function_names.

Definition single_target (f : string) : bool :=
  existsb (String.eqb f)
    [ "build_package_deb"; "build_linux"; "build_windows"; "build_macos"; "build_portable" ].

Definition has_body (f : string) : bool :=
  existsb (String.eqb f)
    [ "build_package_deb"; "build_portable"; "build_linux"; "build_windows";
      "build_macos"; "build_docker" ].

Definition needs_arch (f : string) : bool :=
  existsb (String.eqb f)
    [ "build_package_deb"; "build_linux"; "build_windows"; "build_macos" ].

Definition needs_version (f : string) : bool := String.eqb f "build_package_deb".

(** [table[k] if k in table.keys() else None]; and whether that
    expression yields [None] for the OS version in [releases], or for
    the [PACKAGE_ARCH] of the architecture in [archmaps]. *)
Definition get_or_None (d : Py.dict Py.value) (k : option string) : Py.value :=
  match k with
  | Some k => default Py.Null (Py.get d k)
  | None => Py.Null
  end.

Definition version_is_None (rel : Py.dict Py.value) (k : option string) : bool :=
  Py.is_None (get_or_None rel k).

Definition arch_is_None (am : Py.dict archmap) (k : option string) : bool :=
  match k with
  | Some k =>
      match Py.get am k with
      | Some a =>
          match PACKAGE_ARCH a with
          | Some v => Py.is_None v
          | None => false
          end
      | None => true
      end
  | None => true
  end.

(** Following the specification: normalization takes a leading marker
    off and leaves the rest of the version alone. *)
Definition strip_leading_marker (raw : string) : string :=
  match raw with
  | String "v" rest => rest
  | _ => raw
  end.

Definition only_leading_marker_removed (raw : string) : Prop :=
  strip_release_marker raw = strip_leading_marker raw.

(** The run ends as a misconfiguration: status 1, the two lines of the
    misconfiguration message and nothing else, no command issued. *)
Definition ends_as_misconfiguration (E : env) (argv : list string) (build_type : string)
  : Prop :=
  fst (run E argv) = Raise (SystemExit 1)
  /\ trace (snd (run E argv)) = map Log (misconfiguration_message build_type).

(** Following the specification: a build function without a body, the
    declared stub included, is a misconfiguration. *)
Definition function_without_body_is_misconfiguration (E : env)
    (prog version build_type : string) (rest : list string) : Prop :=
  forall c f,
    Py.get (configurations E) build_type = Some c ->
    build_function c = Some f ->
    has_body f = false ->
    ends_as_misconfiguration E (prog :: version :: build_type :: rest) build_type.

(** The container commands of a trace that the engine answered with a
    status other than 0, each asked with the events before it. *)
Fixpoint failed_steps (engine : list event -> string -> Z) (before after : list event)
  : list string :=
  match after with
  | [] => []
  | System cmd :: after' =>
      (if (engine before cmd =? 0)%Z then [] else [cmd])
      ++ failed_steps engine (before ++ [System cmd]) after'
  | e :: after' => failed_steps engine (before ++ [e]) after'
  end.

(** Following the specification: a step that exits non-zero makes the
    process exit non-zero. *)
Definition failed_step_fails_the_run (E : env) (argv : list string) : Prop :=
  failed_steps (engine E) [] (trace (snd (run E argv))) <> [] ->
  exit_status (fst (run E argv)) <> 0%Z.

(** The checks of the arguments, and the lines a run prints when a check
    is the first to fail. *)
Inductive check := BuildTypeCheck | BuildFunctionCheck | ArchCheck | VersionCheck.

Definition banner (f build_type : string) (build_arch : option string) : list string :=
  if String.eqb f "build_package_deb"
  then ["> Building an " ++ Py.str_opt build_arch ++ " " ++ build_type ++ " .deb package..."; ""]
  else if String.eqb f "build_linux"
  then ["> Building a portable " ++ Py.str_opt build_arch ++ " Linux archive..."; ""]
  else if String.eqb f "build_windows"
  then ["> Building a portable " ++ Py.str_opt build_arch ++ " Windows archive..."; ""]
  else if String.eqb f "build_macos"
  then ["> Building a portable " ++ Py.str_opt build_arch ++ " MacOS archive..."; ""]
  else [].

Definition usage_lines (E : env) (prog : string) : list string :=
  [ prog ++ " JELLYFIN_VERSION BUILD_TYPE [BUILD_ARCH] [BUILD_VERSION]";
    "  JELLYFIN_VERSION: The Jellyfin version being built";
    "    * Stable releases should be tag names with a 'v' e.g. v10.9.0";
    "    * Unstable releases should be 'master' or a date-to-the-hour version e.g. 2024021600";
    "  BUILD_TYPE: The type of build to execute";
    "    * Valid options are: " ++ Py.join ", " (Py.keys (configurations E));
    "  BUILD_ARCH: The CPU architecture of the build";
    "    * Valid options are: <empty> [portable/docker only], amd64, arm64, armhf";
    "  BUILD_VERSION: A valid OS distribution version (.deb/.rpm build types only)" ].

Section Checks.

Variables (E : env) (prog version build_type : string) (rest : list string).

(** The command line, and the two optional arguments as the script reads
    them from it. *)
Definition command_line : list string := prog :: version :: build_type :: rest.

Definition given_arch : option string := nth_error rest 0.
Definition given_version : option string := nth_error rest 1.

Definition configured : option build_config := Py.get (configurations E) build_type.

Definition configured_function : option string :=
  match configured with
  | Some c => build_function c
  | None => None
  end.

Definition build_type_exists : bool := Py.has_key (configurations E) (Some build_type).

Definition function_in_table : bool :=
  match configured_function with
  | Some f => in_table f
  | None => false
  end.

(** The document holds the tables that the build function reads its
    arguments from. *)
Definition tables_present : bool :=
  match configured, configured_function with
  | Some c, Some f =>
      (negb (needs_version f) || bool_decide (is_Some (releases c)))
      && (negb (needs_arch f) || bool_decide (is_Some (archmaps c)))
  | _, _ => false
  end.

(** The architecture, or the OS version, is asked for by the build
    function and does not resolve in its table: it is not a key of the
    table, or the key is bound to a YAML null. *)
Definition arch_unresolved : bool :=
  match configured, configured_function with
  | Some c, Some f => needs_arch f && arch_is_None (default [] (archmaps c)) given_arch
  | _, _ => false
  end.

Definition version_unresolved : bool :=
  match configured, configured_function with
  | Some c, Some f =>
      needs_version f && version_is_None (default [] (releases c)) given_version
  | _, _ => false
  end.

(** Following the specification: build type, build function,
    architecture, OS version.  A document without the tables is no
    failure of a check of the arguments. *)
Definition first_failure_in_spec_order : option check :=
  if negb build_type_exists then Some BuildTypeCheck
  else if negb function_in_table then Some BuildFunctionCheck
  else if negb tables_present then None
  else if arch_unresolved then Some ArchCheck
  else if version_unresolved then Some VersionCheck
  else None.

(** The same with the OS version before the architecture. *)
Definition first_failure_in_code_order : option check :=
  if negb build_type_exists then Some BuildTypeCheck
  else if negb function_in_table then Some BuildFunctionCheck
  else if negb tables_present then None
  else if version_unresolved then Some VersionCheck
  else if arch_unresolved then Some ArchCheck
  else None.

(** What is printed when check [k] fails: the message of the check,
    which names the value that was given and the keys that are valid,
    after the lines that come before it and, for the build type, before
    the usage text. *)
Definition report (k : check) : list string :=
  match k with
  | BuildTypeCheck =>
      invalid_build_type_message build_type :: "" :: usage_lines E prog
  | BuildFunctionCheck => misconfiguration_message build_type
  | VersionCheck =>
      match configured, configured_function with
      | Some c, Some f =>
          master_note E version ++ banner f build_type given_arch
          ++ [ invalid_arguments_message
                 (invalid_version_text build_type given_version
                    (default [] (releases c))) ]
      | _, _ => []
      end
  | ArchCheck =>
      match configured, configured_function with
      | Some c, Some f =>
          master_note E version ++ banner f build_type given_arch
          ++ [ invalid_arguments_message
                 (invalid_arch_text build_type given_arch given_version
                    (default [] (archmaps c))) ]
      | _, _ => []
      end
  end.

(** A run reports the first failure of an order of the checks: it prints
    the report of that check and no other, issues no command and exits
    with status 1. *)
Definition reports_first_failure (first_failure : option check) : Prop :=
  forall k,
    first_failure = Some k ->
    printed (trace (snd (run E command_line))) = report k
    /\ commands (trace (snd (run E command_line))) = []
    /\ exit_status (fst (run E command_line)) = 1%Z.

End Checks.

(** ** A configuration in the shape of the repository's [build.yaml] *)

Module Sample.

Definition amd64 : archmap :=
  Archmap (Some (Py.Str "amd64")) (Some "x64") (Some "x86_64") (Some "amd64").
Definition arm64 : archmap :=
  Archmap (Some (Py.Str "arm64")) (Some "arm64") (Some "aarch64") (Some "arm64v8").

Definition debian : build_config :=
  BuildConfig (Some "debian/docker/Dockerfile") (Some "jellyfin-builder-debian")
    None (Some "build_package_deb")
    (Some [("amd64", amd64); ("arm64", arm64)])
    (Some [("bullseye", Py.Str "11"); ("bookworm", Py.Str "12")])
    (Some [("bullseye", "10"); ("bookworm", "12")]).

Definition fedora : build_config :=
  BuildConfig (Some "fedora/docker/Dockerfile") (Some "jellyfin-builder-fedora")
    None (Some "build_package_rpm") None None None.

Definition linux : build_config :=
  BuildConfig (Some "portable/Dockerfile") (Some "jellyfin-builder-linux")
    (Some "targz") (Some "build_linux")
    (Some [("amd64", amd64); ("arm64", arm64)]) None None.

Definition portable : build_config :=
  BuildConfig (Some "portable/Dockerfile") (Some "jellyfin-builder-portable")
    (Some "targz,zip") (Some "build_portable") None None None.

Definition docker : build_config :=
  BuildConfig (Some "docker/Dockerfile") (Some "jellyfin/jellyfin")
    None (Some "build_docker")
    (Some [("amd64", amd64); ("arm64", arm64)]) None None.

Definition nuget : build_config :=
  BuildConfig (Some "nuget/Dockerfile") (Some "jellyfin-builder-nuget")
    None (Some "build_nuget") None None None.

Definition config : configuration :=
  [ ("debian", debian); ("fedora", fedora); ("linux", linux);
    ("portable", portable); ("docker", docker); ("nuget", nuget) ].

(** An engine on which every command succeeds, and one on which every
    command fails. *)
Definition all_succeed : list event -> string -> Z := fun _ _ => 0%Z.
Definition all_fail : list event -> string -> Z := fun _ _ => 1%Z.

(** An engine on which the push of the first image fails and every
    other command succeeds. *)
Definition first_push_fails : list event -> string -> Z :=
  fun _ cmd =>
    if String.eqb cmd "docker push jellyfin/jellyfin:10.9.0-amd64.20240216-120000 2>&1"
    then 1%Z else 0%Z.

(** The plan of a container image run on this document. *)
Definition plan : docker_plan :=
  DockerPlan "jellyfin/jellyfin" "docker/Dockerfile"
    [ ("amd64", ("amd64", "x64", "x86_64", "amd64"));
      ("arm64", ("arm64", "arm64", "aarch64", "arm64v8")) ].

Definition surroundings (engine : list event -> string -> Z) : env :=
  Env config "/repo" "2024021600" "20240216-120000" "Fri, 16 Feb 2024 12:00:00 +0000"
    (fun path => if String.eqb path "/repo/debian/changelog.in" then Some "changelog" else None)
    (fun template version build comment date =>
       Some (template ++ " " ++ version ++ "-" ++ build ++ " " ++ comment ++ " " ++ date))
    engine.

End Sample.

(** ** Further readings of the script *)

(** The line printed when the command line is too short. *)
Definition missing_arguments_message : string :=
  "Error: Missing required arguments ('JELLYFIN_VERSION' and/or 'BUILD_TYPE')".

(** The first of the keys that [build_portable] subscripts, in the order
    in which it subscripts them, that the build type does not hold. *)
Definition first_missing_portable_key (c : build_config) : option string :=
  match dockerfile c, imagename c, archivetypes c with
  | None, _, _ => Some "dockerfile"
  | Some _, None, _ => Some "imagename"
  | Some _, Some _, None => Some "archivetypes"
  | Some _, Some _, Some _ => None
  end.

(** A result with the events [before] put in front of its trace, and the
    programs that do not look at what was traced before them: entered
    after more events, they do the same after those events. *)
Definition prepend {A} (before : list event) (rw : result A * world) : result A * world :=
  (fst rw, World (before ++ trace (snd rw)) (frame (snd rw))).

Definition trace_blind {A} (m : M A) : Prop :=
  forall before w, m (World (before ++ trace w) (frame w)) = prepend before (m w).

(** The note on [master]. *)
Definition master_note_line (E : env) : string :=
  "NOTE: Autocorrecting 'master' version to " ++ now_hour E.

(** A document whose container image build type is not called [docker]
    and that has no [docker] entry, whose portable build type lacks its
    image name, whose package build type is complete and whose MacOS
    build type has no [archmaps]; no file can be read in its
    surroundings. *)
Module Sample2.

Definition container : build_config :=
  BuildConfig (Some "docker/Dockerfile") (Some "jellyfin/jellyfin")
    None (Some "build_docker")
    (Some [("amd64", Sample.amd64)]) None None.

Definition portable : build_config :=
  BuildConfig (Some "portable/Dockerfile") None
    (Some "targz,zip") (Some "build_portable") None None None.

Definition ubuntu : build_config :=
  BuildConfig (Some "debian/docker/Dockerfile") (Some "jellyfin-builder-ubuntu")
    None (Some "build_package_deb")
    (Some [("arm64", Sample.arm64)])
    (Some [("noble", Py.Str "24.04")])
    (Some [("noble", "13")]).

Definition macos : build_config :=
  BuildConfig (Some "portable/Dockerfile") (Some "jellyfin-builder-macos")
    (Some "targz") (Some "build_macos") None None None.

Definition config : configuration :=
  [ ("container", container); ("portable", portable); ("ubuntu", ubuntu);
    ("macos", macos) ].

Definition surroundings : env :=
  Env config "/repo" "2024021600" "20240216-120000" "Fri, 16 Feb 2024 12:00:00 +0000"
    (fun _ => None) (fun _ _ _ _ _ => None) Sample.all_succeed.

End Sample2.

(** The events of a trace other than the lines printed. *)
Fixpoint effects (t : list event) : list event :=
  match t with
  | [] => []
  | Log _ :: t' => effects t'
  | e :: t' => e :: effects t'
  end.

(** A value that is a string, and the rendering of a value that is not
    [None]. *)
Definition string_value (v : Py.value) : option string :=
  match v with
  | Py.Str s => Some s
  | _ => None
  end.

Definition rendered (v : Py.value) : option string :=
  if Py.is_None v then None else Some (Py.str v).

(** What [build_package_deb] reads for a build of version [version] for
    the architecture [arch] and the OS version [os]: the values of the
    document, the changelog template and the changelog made from it.
    The plan exists when every check passes, every key and file that
    the function reads is there and the OS version is bound to a string
    in [releases]. *)
Record deb_plan := DebPlan {
  deb_os_version : string;
  deb_package_arch : string;
  deb_dockerfile : string;
  deb_gcc : string;
  deb_changelog : string;
  deb_base : string
}.

Definition plan_deb (E : env) (version build_type arch os : string) : option deb_plan :=
  c ← Py.get (configurations E) build_type;
  rel ← releases c;
  os_version ← Py.get rel os ≫= string_value;
  am ← archmaps c;
  entry ← Py.get am arch;
  package_arch ← PACKAGE_ARCH entry ≫= rendered;
  df ← dockerfile c;
  gcc ← cross_gcc c;
  gcc_version ← Py.get gcc os;
  template ← read_file E (repo_root_dir E ++ "/debian/changelog.in");
  changelog ← format_changelog E template (strip_release_marker version)
                 (Py.take 3 build_type ++ Py.replace_char "." "" os_version)
                 (release_comment version) (now_rfc2822 E);
  base ← imagename c;
  Some (DebPlan os_version package_arch df gcc_version changelog base).

(** The name of the image of a package build, and its two commands. *)
Definition deb_image (p : deb_plan) (version build_type arch os : string) : string :=
  deb_base p ++ "-" ++ strip_release_marker version ++ "_" ++ arch
  ++ "-" ++ build_type ++ "-" ++ os.

Definition deb_build_command (E : env) (p : deb_plan)
    (version build_type arch os : string) : string :=
  docker_build_cmd ++ " --build-arg PACKAGE_TYPE=" ++ build_type
  ++ " --build-arg PACKAGE_VERSION=" ++ deb_os_version p
  ++ " --build-arg PACKAGE_ARCH=" ++ deb_package_arch p
  ++ " --build-arg GCC_VERSION=" ++ deb_gcc p
  ++ " --file " ++ repo_root_dir E ++ "/" ++ deb_dockerfile p
  ++ " --tag " ++ deb_image p version build_type arch os ++ " " ++ repo_root_dir E.

Definition deb_run_command (E : env) (p : deb_plan)
    (version build_type arch os : string) : string :=
  docker_run_cmd ++ " --volume " ++ repo_root_dir E ++ ":/jellyfin --volume "
  ++ repo_root_dir E ++ "/out/" ++ build_type ++ ":/dist --env JELLYFIN_VERSION="
  ++ strip_release_marker version
  ++ " --name " ++ deb_image p version build_type arch os
  ++ " " ++ deb_image p version build_type arch os.

(** The table that a build function reads first and the build type does
    not hold: [releases] for the package build, [archmaps] for the three
    portable archive builds. *)
Definition first_missing_table (f : string) (c : build_config) : option string :=
  if String.eqb f "build_package_deb"
  then match releases c with None => Some "releases" | Some _ => None end
  else if needs_arch f
  then match archmaps c with None => Some "archmaps" | Some _ => None end
  else None.

(** The value of [DOTNET_TYPE] that each portable archive build passes
    to its container. *)
Definition dotnet_type (f : string) : option string :=
  if String.eqb f "build_linux" then Some "linux"
  else if String.eqb f "build_windows" then Some "win"
  else if String.eqb f "build_macos" then Some "osx"
  else None.

(** What a portable archive build reads from the document for the
    architecture [arch]; the plan exists when the check of the
    architecture passes and every key that the function reads is there. *)
Record archive_plan := ArchivePlan {
  archive_package_arch : string;
  archive_dotnet_arch : string;
  archive_dockerfile : string;
  archive_base : string;
  archive_types : string
}.

Definition plan_archive (E : env) (build_type arch : string) : option archive_plan :=
  c ← Py.get (configurations E) build_type;
  am ← archmaps c;
  entry ← Py.get am arch;
  package_arch ← PACKAGE_ARCH entry ≫= rendered;
  dotnet_arch ← DOTNET_ARCH entry;
  df ← dockerfile c;
  base ← imagename c;
  types ← archivetypes c;
  Some (ArchivePlan package_arch dotnet_arch df base types).

Definition archive_image (p : archive_plan) (version build_type arch : string) : string :=
  archive_base p ++ "-" ++ strip_release_marker version ++ "_" ++ arch ++ "-" ++ build_type.

Definition archive_build_command (E : env) (p : archive_plan)
    (version build_type arch : string) : string :=
  docker_build_cmd ++ " --file " ++ repo_root_dir E ++ "/" ++ archive_dockerfile p
  ++ " --tag " ++ archive_image p version build_type arch ++ " " ++ repo_root_dir E.

Definition archive_run_command (E : env) (p : archive_plan)
    (dotnet version build_type arch : string) : string :=
  docker_run_cmd ++ " --volume " ++ repo_root_dir E ++ ":/jellyfin --volume "
  ++ repo_root_dir E ++ "/out/" ++ build_type ++ ":/dist --env JELLYFIN_VERSION="
  ++ strip_release_marker version
  ++ " --env BUILD_TYPE=" ++ build_type
  ++ " --env PACKAGE_ARCH=" ++ archive_package_arch p
  ++ " --env DOTNET_TYPE=" ++ dotnet
  ++ " --env DOTNET_ARCH=" ++ archive_dotnet_arch p
  ++ " --env ARCHIVE_TYPES=" ++ archive_types p
  ++ " --name " ++ archive_image p version build_type arch
  ++ " " ++ archive_image p version build_type arch.

(** A command that publishes: a login, a push of an image, or a command
    on a manifest. *)
Definition publish_command (cmd : string) : bool :=
  String.prefix "docker push" cmd || String.prefix "docker login" cmd
  || manifest_command cmd.

Definition unpublished (w : world) : Prop :=
  Forall (fun cmd => publish_command cmd = false) (commands (trace w)).

(** A step from a world in which nothing was published leads to such a
    world, whether it returns or stops on an exception of class
    [Exception]. *)
Definition stays_unpublished {A} (rw : result A * world) : Prop :=
  match rw with
  | (Ok _, w') => unpublished w'
  | (Raise e, w') => is_Exception e = true /\ unpublished w'
  end.

(** A document whose [docker] entry declares an architecture without its
    [QEMU_ARCH], and whose package build type knows an OS version that
    its [cross-gcc] table does not. *)
Module Sample3.

Definition armhf : archmap :=
  Archmap (Some (Py.Str "armhf")) (Some "arm") None (Some "arm32v7").

Definition docker : build_config :=
  BuildConfig (Some "docker/Dockerfile") (Some "jellyfin/jellyfin")
    None (Some "build_docker")
    (Some [("amd64", Sample.amd64); ("armhf", armhf)]) None None.

Definition debian : build_config :=
  BuildConfig (Some "debian/docker/Dockerfile") (Some "jellyfin-builder-debian")
    None (Some "build_package_deb")
    (Some [("amd64", Sample.amd64)])
    (Some [("bookworm", Py.Str "12"); ("trixie", Py.Str "13")])
    (Some [("bookworm", "12")]).

Definition config : configuration := [ ("docker", docker); ("debian", debian) ].

Definition surroundings : env :=
  Env config "/repo" "2024021600" "20240216-120000" "Fri, 16 Feb 2024 12:00:00 +0000"
    (fun _ => None) (fun _ _ _ _ _ => None) Sample.all_succeed.

(** A frame as the loop over the architectures leaves it. *)
Definition frame_after_builds : gmap string pyval :=
  <["images_ghcr" := PyList ["ghcr.io/jellyfin/jellyfin:10.9.0-amd64"]]>
    (<["images" := PyList ["jellyfin/jellyfin:10.9.0-amd64"]]> ∅).

End Sample3.

(** A document whose package build type writes a release number without
    quotes, so that YAML reads an integer. *)
Module Sample4.

Definition debian : build_config :=
  BuildConfig (Some "debian/docker/Dockerfile") (Some "jellyfin-builder-debian")
    None (Some "build_package_deb")
    (Some [("amd64", Sample.amd64)])
    (Some [("bookworm", Py.Other Py.TInt "12")])
    (Some [("bookworm", "12")]).

Definition config : configuration := [ ("debian", debian) ].

Definition surroundings : env :=
  Env config "/repo" "2024021600" "20240216-120000" "Fri, 16 Feb 2024 12:00:00 +0000"
    (fun _ => Some "changelog")
    (fun template version build comment date =>
       Some (template ++ " " ++ version ++ "-" ++ build ++ " " ++ comment ++ " " ++ date))
    Sample.all_succeed.

End Sample4.

(** * Properties *)

(** ** The release marker *)

Section ReleaseMarker.

Lemma prefix_char (c : ascii) (s : string) :
  String.prefix (String c "") s = true <-> exists post, s = String c post.
Proof.
  destruct s as [|a s]; simpl.
  - split; [discriminate | intros [post H]; discriminate].
  - destruct (ascii_dec c a) as [->|Hne].
    + destruct s; split; eauto.
    + split; [discriminate | intros [post H]; congruence].
Qed.

Lemma str_in_char (c : ascii) (s : string) :
  Py.str_in (String c "") s = true <-> exists pre post, s = pre ++ String c post.
Proof.
  induction s as [|a s IH].
  - simpl. split; [discriminate|].
    intros [[|b pre] [post H]]; discriminate.
  - cbn [Py.str_in]. rewrite orb_true_iff, IH, prefix_char. split.
    + intros [[post ->] | [pre [post ->]]].
      * exists "", post. reflexivity.
      * exists (String a pre), post. reflexivity.
    + intros [[|b pre] [post H]]; simpl in H; injection H as -> ->.
      * left. eauto.
      * right. eauto.
Qed.

Lemma replace_char_cons (c a : ascii) (s : string) :
  Py.replace_char c "" (String a s)
  = if Ascii.eqb a c then Py.replace_char c "" s else String a (Py.replace_char c "" s).
Proof. reflexivity. Qed.

Lemma replace_char_chars (c : ascii) (s : string) :
  list_ascii_of_string (Py.replace_char c "" s)
  = List.filter (fun a => negb (Ascii.eqb a c)) (list_ascii_of_string s).
Proof.
  induction s as [|a s IH]; [reflexivity|].
  rewrite replace_char_cons. simpl.
  destruct (Ascii.eqb a c); simpl; congruence.
Qed.

Lemma str_in_replace_char (c : ascii) (s : string) :
  Py.str_in (String c "") (Py.replace_char c "" s) = false.
Proof.
  induction s as [|a s IH]; [reflexivity|].
  rewrite replace_char_cons. destruct (Ascii.eqb_spec a c) as [->|Hne]; [exact IH|].
  cbn [Py.str_in String.prefix]. rewrite IH.
  destruct (ascii_dec c a); [congruence | reflexivity].
Qed.

Lemma replace_char_absent (c : ascii) (s : string) :
  Py.str_in (String c "") s = false -> Py.replace_char c "" s = s.
Proof.
  induction s as [|a s IH]; [reflexivity|].
  cbn [Py.str_in String.prefix]. intros H. apply orb_false_iff in H as [Hp Hs].
  rewrite replace_char_cons. destruct (Ascii.eqb_spec a c) as [->|Hne].
  - destruct (ascii_dec c c); [destruct s; discriminate | congruence].
  - rewrite IH; auto.
Qed.

End ReleaseMarker.

(** C9, as the specification states it, fails on a version with a [v]
    after the first character: the [v] of [-dev] is removed as well, and
    the portable build of [v10.9.0-dev] names its image and the version
    of its artifact after [10.9.0-de]. *)
Lemma interior_marker_is_removed :
  ~ only_leading_marker_removed "v10.9.0-dev"
  /\ commands (trace (snd (run (Sample.surroundings Sample.all_succeed)
                            ["build.py"; "v10.9.0-dev"; "portable"])))
     = [ "docker build --progress=plain --no-cache --file /repo/portable/Dockerfile --tag jellyfin-builder-portable-10.9.0-de_portable /repo";
         "docker run --rm --volume /repo:/jellyfin --volume /repo/out/portable:/dist --env JELLYFIN_VERSION=10.9.0-de --env BUILD_TYPE=portable --env ARCHIVE_TYPES=targz,zip --name jellyfin-builder-portable-10.9.0-de_portable jellyfin-builder-portable-10.9.0-de_portable" ].
Proof.
  split; [|vm_compute; reflexivity].
  unfold only_leading_marker_removed. vm_compute. discriminate.
Qed.

(** ** Running the script on symbolic arguments *)

Ltac exec :=
  cbv beta iota zeta delta
    [run main bind ret raise exit log emit try_except or_raise not_None replace_method
     subscript field subscript_opt usage start trace frame is_Exception os_system
     open_read open_write str_format store_name load_name load_list items_of append_to
     fst snd].

Ltac exec_in H :=
  cbv beta iota zeta delta
    [run main bind ret raise exit log emit try_except or_raise not_None replace_method
     subscript field subscript_opt usage start trace frame is_Exception os_system
     open_read open_write str_format store_name load_name load_list items_of append_to
     fst snd] in H.

Ltac split_match :=
  match goal with
  | |- context [match ?x with _ => _ end] =>
      lazymatch x with
      | context [match _ with _ => _ end] => fail
      | _ => destruct x eqn:?
      end
  end.

Lemma has_key_get {V} (d : Py.dict V) (k : string) :
  Py.has_key d (Some k) = true <-> exists v, Py.get d k = Some v.
Proof.
  unfold Py.has_key, Py.keys. induction d as [|[k' v] d IH]; simpl.
  - split; [discriminate | intros [v H]; discriminate].
  - destruct (String.eqb k k'); simpl; [split; eauto | exact IH].
Qed.

Lemma has_key_of_get {V} (d : Py.dict V) (k : string) (v : V) :
  Py.get d k = Some v -> Py.has_key d (Some k) = true.
Proof. intros H. apply has_key_get. eauto. Qed.

Lemma has_key_function_definitions E G f :
  Py.has_key (function_definitions E G) (Some f) = in_table f.
Proof. reflexivity. Qed.

Lemma commands_app (t u : list event) :
  commands (t ++ u) = (commands t ++ commands u)%list.
Proof. induction t as [|[] t IH]; simpl; congruence. Qed.

Lemma printed_app (t u : list event) :
  printed (t ++ u) = (printed t ++ printed u)%list.
Proof. induction t as [|[] t IH]; simpl; congruence. Qed.

Lemma commands_logs (lines : list string) : commands (map Log lines) = [].
Proof. induction lines; simpl; auto. Qed.

Lemma printed_logs (lines : list string) : printed (map Log lines) = lines.
Proof. induction lines; simpl; congruence. Qed.

(** Past the checks of the module body, a run is the call of the build
    function that the build type names. *)
Lemma run_calls_build_function E prog version build_type rest c f build :
  Py.get (configurations E) build_type = Some c ->
  build_function c = Some f ->
  Py.get (function_definitions E (Globals (nth_error rest 0) (nth_error rest 1))) f
  = Some build ->
  run E (prog :: version :: build_type :: rest)
  = build (version_handed E version) build_type (nth_error rest 0) (nth_error rest 1)
      (at_call E version).
Proof.
  intros Hc Hf Hb.
  assert (Hk : Py.has_key (configurations E) (Some build_type) = true)
    by (apply has_key_get; eauto).
  assert (Ht : Py.has_key
                 (function_definitions E (Globals (nth_error rest 0) (nth_error rest 1)))
                 (Some f) = true) by (apply has_key_get; eauto).
  unfold at_call, version_handed, master_note.
  exec. rewrite Hk. exec. rewrite Hc. exec. rewrite Hf. exec. rewrite Ht. exec.
  cbn [global_build_arch global_build_version].
  destruct (String.eqb version "master"); exec; rewrite Hb; reflexivity.
Qed.
(** ** The checks of the arguments *)

Lemma in_table_get E G f :
  in_table f = true -> exists build, Py.get (function_definitions E G) f = Some build.
Proof. intros H. apply has_key_get. exact H. Qed.

Lemma needs_arch_cases f :
  needs_arch f = true ->
  f = "build_package_deb" \/ f = "build_linux" \/ f = "build_windows" \/ f = "build_macos".
Proof.
  unfold needs_arch. cbn [existsb]. rewrite !orb_true_iff, !String.eqb_eq.
  intuition discriminate.
Qed.

(** The conditional expressions that look the OS version and the
    architecture up. *)
Lemma version_lookup (rel : Py.dict Py.value) (o : option string) (w : world) :
  (if Py.has_key rel o then subscript_opt rel o else ret Py.Null) w
  = (Ok (get_or_None rel o), w).
Proof.
  destruct o as [k|]; [|reflexivity]. unfold get_or_None.
  destruct (Py.has_key rel (Some k)) eqn:Hk.
  - apply has_key_get in Hk as [v Hv]. exec. rewrite Hv. reflexivity.
  - destruct (Py.get rel k) as [v|] eqn:Hv; [|reflexivity].
    assert (Py.has_key rel (Some k) = true) by (apply has_key_get; eauto). congruence.
Qed.

Lemma arch_lookup_None (am : Py.dict archmap) (a : option string) (w : world) :
  arch_is_None am a = true ->
  exists v,
    (if Py.has_key am a
     then e <- subscript_opt am a ;; field "PACKAGE_ARCH" (PACKAGE_ARCH e)
     else ret Py.Null)%prog w = (Ok v, w)
    /\ Py.is_None v = true.
Proof.
  unfold arch_is_None. destruct a as [k|]; [|exists Py.Null; auto].
  destruct (Py.has_key am (Some k)) eqn:Hk.
  - apply has_key_get in Hk as [e He]. rewrite He. exec. rewrite He. exec.
    destruct (PACKAGE_ARCH e) as [v|]; [|discriminate]. eauto.
  - exists Py.Null. auto.
Qed.

Lemma arch_lookup_Some (am : Py.dict archmap) (k : string) (e : archmap) (v : Py.value)
    (w : world) :
  Py.get am k = Some e ->
  PACKAGE_ARCH e = Some v ->
  (if Py.has_key am (Some k)
   then e <- subscript_opt am (Some k) ;; field "PACKAGE_ARCH" (PACKAGE_ARCH e)
   else ret Py.Null)%prog w = (Ok v, w).
Proof.
  intros He Hv. assert (Hk : Py.has_key am (Some k) = true) by (apply has_key_get; eauto).
  rewrite Hk. exec. rewrite He. exec. rewrite Hv. reflexivity.
Qed.

(** The version check of [build_package_deb] comes first. *)
Lemma deb_version_unresolved E v bt a o c rel w :
  Py.get (configurations E) bt = Some c ->
  releases c = Some rel ->
  version_is_None rel o = true ->
  build_package_deb E v bt a o w
  = (Raise (SystemExit 1),
     World (trace w ++ map Log (banner "build_package_deb" bt a
                                ++ [invalid_arguments_message
                                      (invalid_version_text bt o rel)]))
       (frame w)).
Proof.
  intros Hc Hr Ho.
  assert (Hk : Py.has_key (configurations E) (Some bt) = true)
    by (apply has_key_get; eauto).
  unfold build_package_deb. unfold bind at 1 2. exec. rewrite Hk. exec. rewrite Hc. exec.
  rewrite Hr. exec. rewrite version_lookup. exec. unfold version_is_None in Ho. rewrite Ho.
  exec. cbn [banner String.eqb Ascii.eqb Bool.eqb map app].
  rewrite <- !app_assoc. reflexivity.
Qed.

Lemma deb_arch_unresolved E v bt a o c rel am w :
  Py.get (configurations E) bt = Some c ->
  releases c = Some rel ->
  version_is_None rel o = false ->
  archmaps c = Some am ->
  arch_is_None am a = true ->
  build_package_deb E v bt a o w
  = (Raise (SystemExit 1),
     World (trace w ++ map Log (banner "build_package_deb" bt a
                                ++ [invalid_arguments_message
                                      (invalid_arch_text bt a o am)]))
       (frame w)).
Proof.
  intros Hc Hr Ho Ha Hn.
  assert (Hk : Py.has_key (configurations E) (Some bt) = true)
    by (apply has_key_get; eauto).
  unfold build_package_deb. exec. rewrite Hk. exec. rewrite Hc. exec.
  rewrite Hr. exec. rewrite version_lookup. exec. unfold version_is_None in Ho. rewrite Ho.
  exec. rewrite Ha. exec.
  match goal with
  | |- context [(if Py.has_key am a then _ else _) ?w1] =>
      destruct (arch_lookup_None am a w1 Hn) as (pa & Hlookup & Hpa)
  end.
  unfold bind in Hlookup. exec_in Hlookup. rewrite Hlookup, Hpa. exec.
  cbn [banner String.eqb Ascii.eqb Bool.eqb map app].
  rewrite <- !app_assoc. reflexivity.
Qed.

Lemma archive_arch_unresolved E G bt a c am w :
  Py.get (configurations E) bt = Some c ->
  archmaps c = Some am ->
  arch_is_None am a = true ->
  check_archive_arch E G bt a w
  = (Raise (SystemExit 1),
     World (trace w ++ [Log (invalid_arguments_message
                               (invalid_arch_text bt a (global_build_version G) am))])
       (frame w)).
Proof.
  intros Hc Ha Hn.
  unfold check_archive_arch. exec. rewrite Hc. exec. rewrite Ha. exec.
  match goal with
  | |- context [(if Py.has_key am a then _ else _) ?w1] =>
      destruct (arch_lookup_None am a w1 Hn) as (pa & Hlookup & Hpa)
  end.
  unfold bind in Hlookup. exec_in Hlookup. rewrite Hlookup, Hpa. reflexivity.
Qed.
(** C8, as the specification states it, fails on a Debian build whose
    architecture and OS version are both unknown: the order of the
    specification reports the architecture, the script reports the OS
    version. *)
Lemma version_is_checked_before_arch :
  ~ reports_first_failure (Sample.surroundings Sample.all_succeed)
      "build.py" "v10.9.0" "debian" ["riscv"; "sid"]
      (first_failure_in_spec_order (Sample.surroundings Sample.all_succeed)
         "debian" ["riscv"; "sid"]).
Proof.
  intros H. destruct (H ArchCheck eq_refl) as [Hp _].
  vm_compute in Hp. discriminate.
Qed.

(** C8, amended.  The checks are made in the order build type, build
    function, OS version, architecture, the last two where the build
    function asks for them; a run on arguments that fail a check prints
    the report of the first check that fails in this order and of no
    other, issues no command and exits with status 1.  The reports of the
    build type, the OS version and the architecture name the value given
    and the valid keys; the report of the build function names the build
    type. *)
Theorem checks_in_code_order (E : env) (prog version build_type : string)
    (rest : list string) :
  reports_first_failure E prog version build_type rest
    (first_failure_in_code_order E build_type rest).
Proof.
  unfold reports_first_failure, first_failure_in_code_order.
  unfold build_type_exists, function_in_table, tables_present, version_unresolved,
    arch_unresolved, configured_function, configured, command_line, report,
    configured_function, configured, given_arch, given_version.
  intros k.
  destruct (Py.has_key (configurations E) (Some build_type)) eqn:Hk; cbn [negb].
  2: { intros [= <-]. exec. rewrite Hk. exec. repeat split; reflexivity. }
  destruct (Py.get (configurations E) build_type) as [c|] eqn:Hc.
  2: { intros [= <-]. exec. rewrite Hk. exec. rewrite Hc. exec.
       repeat split; reflexivity. }
  destruct (build_function c) as [f|] eqn:Hf.
  2: { intros [= <-]. exec. rewrite Hk. exec. rewrite Hc. exec. rewrite Hf. exec.
       repeat split; reflexivity. }
  destruct (in_table f) eqn:Ht; cbn [negb].
  2: { intros [= <-]. exec. rewrite Hk. exec. rewrite Hc. exec. rewrite Hf. exec.
       rewrite has_key_function_definitions, Ht.
       repeat split; reflexivity. }
  set (G := Globals (nth_error rest 0) (nth_error rest 1)).
  assert (Hfinish : forall text,
    printed (trace (at_call E version)
                ++ map Log (banner f build_type (nth_error rest 0)
                            ++ [invalid_arguments_message text]))
    = (master_note E version ++ banner f build_type (nth_error rest 0)
       ++ [invalid_arguments_message text])%list).
  { intros text. unfold at_call. cbn [trace]. rewrite <- map_app. apply printed_logs. }
  assert (Hquiet : forall text,
    commands (trace (at_call E version)
                ++ map Log (banner f build_type (nth_error rest 0)
                            ++ [invalid_arguments_message text])) = []).
  { intros text. unfold at_call. cbn [trace]. rewrite <- map_app. apply commands_logs. }
  destruct (needs_version f) eqn:Hv.
  - (* build_package_deb *)
    apply String.eqb_eq in Hv. subst f.
    rewrite (run_calls_build_function E prog version build_type rest c _
               (build_package_deb E) Hc Hf eq_refl).
    cbn [needs_arch existsb String.eqb Ascii.eqb Bool.eqb orb andb negb].
    destruct (releases c) as [rel|] eqn:Hr; [|discriminate].
    destruct (archmaps c) as [am|] eqn:Ha; [|discriminate].
    cbn [default from_option id]. rewrite !bool_decide_eq_true_2 by eauto. cbn [andb negb].
    destruct (version_is_None rel (nth_error rest 1)) eqn:Ho.
    + intros [= <-].
      rewrite (deb_version_unresolved E _ _ _ _ c rel _ Hc Hr Ho).
      cbn [fst snd trace]. rewrite Hfinish, Hquiet. repeat split; reflexivity.
    + destruct (arch_is_None am (nth_error rest 0)) eqn:Hn; [|discriminate].
      intros [= <-].
      rewrite (deb_arch_unresolved E _ _ _ _ c rel am _ Hc Hr Ho Ha Hn).
      cbn [fst snd trace]. rewrite Hfinish, Hquiet. repeat split; reflexivity.
  - cbn [andb orb negb].
    destruct (needs_arch f) eqn:Hn; cbn [andb orb negb]; [|discriminate].
    destruct (archmaps c) as [am|] eqn:Ha; [|discriminate].
    cbn [default from_option id]. rewrite !bool_decide_eq_true_2 by eauto.
    destruct (arch_is_None am (nth_error rest 0)) eqn:Hno; [|discriminate].
    intros [= <-].
    pose proof (archive_arch_unresolved E G build_type (nth_error rest 0) c am) as Hcheck.
    specialize (fun w => Hcheck w Hc Ha Hno).
    apply needs_arch_cases in Hn as [-> | [-> | [-> | ->]]]; [discriminate| | |].
    + rewrite (run_calls_build_function E prog version build_type rest c _
                 (build_linux E G) Hc Hf eq_refl).
      unfold build_linux. exec. rewrite Hcheck.
      rewrite <- (Hfinish (invalid_arch_text build_type (nth_error rest 0) (nth_error rest 1) am)).
      rewrite <- (Hquiet (invalid_arch_text build_type (nth_error rest 0) (nth_error rest 1) am)) at 2.
      cbn [banner String.eqb Ascii.eqb Bool.eqb map app trace fst snd exit_status
           global_build_version G].
      rewrite <- !app_assoc. repeat split; reflexivity.
    + rewrite (run_calls_build_function E prog version build_type rest c _
                 (build_windows E G) Hc Hf eq_refl).
      unfold build_windows. exec. rewrite Hcheck.
      rewrite <- (Hfinish (invalid_arch_text build_type (nth_error rest 0) (nth_error rest 1) am)).
      rewrite <- (Hquiet (invalid_arch_text build_type (nth_error rest 0) (nth_error rest 1) am)) at 2.
      cbn [banner String.eqb Ascii.eqb Bool.eqb map app trace fst snd exit_status
           global_build_version global_build_arch G].
      rewrite <- !app_assoc. repeat split; reflexivity.
    + rewrite (run_calls_build_function E prog version build_type rest c _
                 (build_macos E G) Hc Hf eq_refl).
      unfold build_macos. exec. rewrite Hcheck.
      rewrite <- (Hfinish (invalid_arch_text build_type (nth_error rest 0) (nth_error rest 1) am)).
      rewrite <- (Hquiet (invalid_arch_text build_type (nth_error rest 0) (nth_error rest 1) am)) at 2.
      cbn [banner String.eqb Ascii.eqb Bool.eqb map app trace fst snd exit_status
           global_build_version G].
      rewrite <- !app_assoc. repeat split; reflexivity.
Qed.

(** ** The build function of a build type *)

(** C6, as the specification states it, fails on a build type that names
    the declared stub [build_package_rpm]: the run prints the banner of
    the stub and ends with status 0. *)
Lemma stub_is_not_misconfiguration :
  ~ function_without_body_is_misconfiguration (Sample.surroundings Sample.all_succeed)
      "build.py" "v10.9.0" "fedora" ["x86_64"; "39"].
Proof.
  intros H. destruct (H Sample.fedora "build_package_rpm" eq_refl eq_refl eq_refl) as [Hr _].
  vm_compute in Hr. discriminate.
Qed.

(** The stub is in the table: a build type that names it passes the
    check, nothing is built and the run ends with status 0. *)
Lemma stubbed_function_runs E prog version build_type rest c :
  Py.get (configurations E) build_type = Some c ->
  build_function c = Some "build_package_rpm" ->
  run E (prog :: version :: build_type :: rest)
  = (Ok tt,
     World (map Log (master_note E version
                     ++ [ "> Building an " ++ Py.str_opt (nth_error rest 0) ++ " "
                          ++ build_type ++ " .rpm package..."; "" ]))
       ∅).
Proof.
  intros Hc Hf.
  rewrite (run_calls_build_function E prog version build_type rest c _
             (build_package_rpm) Hc Hf eq_refl).
  unfold build_package_rpm, at_call. exec. rewrite map_app, <- app_assoc. reflexivity.
Qed.

(** C6, amended.  When the build type names no build function, or one
    that is not a key of the table of build functions, the run ends
    before any build step: it prints the two lines of the
    misconfiguration message, which asks for a bug report and is neither
    the message of an invalid build type nor that of invalid arguments,
    and exits with status 1.  The declared stub is a key of the table
    and is outside this statement. *)
Theorem unknown_build_function_is_fatal (E : env) (prog version build_type : string)
    (rest : list string) :
  build_type_exists E build_type = true ->
  function_in_table E build_type = false ->
  ends_as_misconfiguration E (command_line prog version build_type rest) build_type
  /\ commands (trace (snd (run E (command_line prog version build_type rest)))) = []
  /\ exit_status (fst (run E (command_line prog version build_type rest))) = 1%Z
  /\ (forall other, hd "" (misconfiguration_message build_type)
                    <> invalid_build_type_message other)
  /\ (forall text, hd "" (misconfiguration_message build_type)
                   <> invalid_arguments_message text).
Proof.
  intros Hk Hf. unfold build_type_exists in Hk.
  unfold function_in_table, configured_function, configured in Hf.
  assert (Hrun : run E (command_line prog version build_type rest)
                 = (Raise (SystemExit 1),
                    World (map Log (misconfiguration_message build_type)) ∅)).
  { unfold command_line. exec. rewrite Hk. exec.
    destruct (Py.get (configurations E) build_type) as [c|]; [|reflexivity].
    exec. destruct (build_function c) as [f|]; [|reflexivity].
    exec. rewrite has_key_function_definitions, Hf. reflexivity. }
  unfold ends_as_misconfiguration. rewrite Hrun.
  repeat split; try reflexivity.
  - intros other. cbv. discriminate.
  - intros text. cbv. discriminate.
Qed.

Lemma unknown_build_function_is_fatal_witness :
  ends_as_misconfiguration (Sample.surroundings Sample.all_succeed)
    ["build.py"; "v10.9.0"; "nuget"; "amd64"] "nuget".
Proof.
  apply (unknown_build_function_is_fatal (Sample.surroundings Sample.all_succeed)
           "build.py" "v10.9.0" "nuget" ["amd64"]); reflexivity.
Defined.

Lemma checks_in_code_order_witness :
  printed (trace (snd (run (Sample.surroundings Sample.all_succeed)
                         ["build.py"; "v10.9.0"; "debian"; "riscv"; "sid"])))
  = [ "> Building an riscv debian .deb package..."; "";
      "Invalid/unsupported arguments: sid is not a valid debian version in dict_keys(['bullseye', 'bookworm'])" ].
Proof.
  apply (checks_in_code_order (Sample.surroundings Sample.all_succeed)
           "build.py" "v10.9.0" "debian" ["riscv"; "sid"] VersionCheck).
  reflexivity.
Defined.

(** ** Builds of one artifact *)

Ltac finish_steps :=
  unfold build_then_run; cbn [fst snd trace];
  rewrite ?commands_app; cbn [commands]; rewrite ?app_nil_r;
  first [ left; reflexivity
        | right; split; [reflexivity | rewrite <- ?app_assoc; eexists _, _; reflexivity] ].

Lemma build_portable_steps E v bt a o w :
  build_then_run w (build_portable E v bt a o w).
Proof.
  unfold build_portable. exec.
  repeat (split_match; exec); finish_steps.
Qed.

Lemma build_package_deb_steps E v bt a o w :
  build_then_run w (build_package_deb E v bt a o w).
Proof.
  unfold build_package_deb. exec.
  repeat (split_match; exec); finish_steps.
Qed.

Lemma check_archive_arch_steps E G bt a w :
  commands (trace (snd (check_archive_arch E G bt a w))) = commands (trace w).
Proof.
  unfold check_archive_arch. exec.
  repeat (split_match; exec); cbn [fst snd trace];
    rewrite ?commands_app, ?app_nil_r; reflexivity.
Qed.

Lemma archive_commands_steps E t v bt a p d w :
  build_then_run w (archive_commands E t v bt a p d w).
Proof.
  unfold archive_commands. exec.
  repeat (split_match; exec); finish_steps.
Qed.

(** A portable archive build: two lines, the check, the two commands. *)
Lemma archive_build_steps E G t v bt a l1 l2 w :
  build_then_run w
    ((log l1 ;; log l2 ;;
      archs <- check_archive_arch E G bt a ;;
      archive_commands E t v bt a (fst archs) (snd archs))%prog w).
Proof.
  exec.
  pose proof (check_archive_arch_steps E G bt a
                (World ((trace w ++ [Log l1]) ++ [Log l2]) (frame w))) as Hcheck.
  destruct (check_archive_arch E G bt a _) as [[archs|e] w1].
  - pose proof (archive_commands_steps E t v bt a (fst archs) (snd archs) w1) as Hcmd.
    cbn [fst snd trace] in Hcheck. rewrite !commands_app in Hcheck.
    cbn [commands] in Hcheck. rewrite !app_nil_r in Hcheck.
    unfold build_then_run in *. rewrite Hcheck in Hcmd. exact Hcmd.
  - left. cbn [fst snd trace] in Hcheck |- *. rewrite Hcheck, !commands_app.
    cbn [commands]. rewrite !app_nil_r. reflexivity.
Qed.

Lemma single_target_cases f :
  single_target f = true ->
  f = "build_package_deb" \/ f = "build_linux" \/ f = "build_windows"
  \/ f = "build_macos" \/ f = "build_portable".
Proof.
  unfold single_target. cbn [existsb]. rewrite !orb_true_iff, !String.eqb_eq.
  intuition discriminate.
Qed.

Lemma single_target_steps E prog version build_type rest f :
  configured_function E build_type = Some f ->
  single_target f = true ->
  build_then_run (at_call E version) (run E (prog :: version :: build_type :: rest)).
Proof.
  unfold configured_function, configured. intros Hf Hs.
  destruct (Py.get (configurations E) build_type) as [c|] eqn:Hc; [|discriminate].
  set (G := Globals (nth_error rest 0) (nth_error rest 1)).
  apply single_target_cases in Hs as [-> | [-> | [-> | [-> | ->]]]].
  - rewrite (run_calls_build_function E prog version build_type rest c _
               (build_package_deb E) Hc Hf eq_refl).
    apply build_package_deb_steps.
  - rewrite (run_calls_build_function E prog version build_type rest c _
               (build_linux E G) Hc Hf eq_refl).
    apply archive_build_steps.
  - rewrite (run_calls_build_function E prog version build_type rest c _
               (build_windows E G) Hc Hf eq_refl).
    apply archive_build_steps.
  - rewrite (run_calls_build_function E prog version build_type rest c _
               (build_macos E G) Hc Hf eq_refl).
    apply archive_build_steps.
  - rewrite (run_calls_build_function E prog version build_type rest c _
               (build_portable E) Hc Hf eq_refl).
    apply build_portable_steps.
Qed.

(** A package build over valid arguments and a complete document: the
    banner, the changelog, the image build and the container run. *)
Lemma package_build_run E version build_type arch os p w :
  plan_deb E version build_type arch os = Some p ->
  build_package_deb E version build_type (Some arch) (Some os) w
  = (Ok tt,
     World (trace w
            ++ map Log (banner "build_package_deb" build_type (Some arch))
            ++ [ WriteFile (repo_root_dir E ++ "/debian/changelog") (deb_changelog p);
                 System (deb_build_command E p version build_type arch os);
                 System (deb_run_command E p version build_type arch os) ])
       (frame w)).
Proof.
  intros Hp. unfold plan_deb in Hp.
  destruct (Py.get (configurations E) build_type) as [c|] eqn:Hc;
    cbn [mbind option_bind] in Hp; [|discriminate].
  destruct (releases c) as [rel|] eqn:Hrel; cbn [mbind option_bind] in Hp; [|discriminate].
  destruct (Py.get rel os) as [[osv| |]|] eqn:Hos;
    cbn [mbind option_bind string_value] in Hp; try discriminate.
  destruct (archmaps c) as [am|] eqn:Ham; cbn [mbind option_bind] in Hp; [|discriminate].
  destruct (Py.get am arch) as [entry|] eqn:Hentry; cbn [mbind option_bind] in Hp;
    [|discriminate].
  destruct (PACKAGE_ARCH entry) as [pa|] eqn:Hpa; cbn [mbind option_bind] in Hp;
    [|discriminate].
  unfold rendered in Hp.
  destruct (Py.is_None pa) eqn:Hnone; cbn [mbind option_bind] in Hp; [discriminate|].
  destruct (dockerfile c) as [df|] eqn:Hdf; cbn [mbind option_bind] in Hp; [|discriminate].
  destruct (cross_gcc c) as [gcc|] eqn:Hgcc; cbn [mbind option_bind] in Hp; [|discriminate].
  destruct (Py.get gcc os) as [gv|] eqn:Hgv; cbn [mbind option_bind] in Hp; [|discriminate].
  destruct (read_file E _) as [tpl|] eqn:Htpl; cbn [mbind option_bind] in Hp;
    [|discriminate].
  destruct (format_changelog E tpl _ _ _ _) as [text|] eqn:Htext;
    cbn [mbind option_bind] in Hp; [|discriminate].
  destruct (imagename c) as [base|] eqn:Hbase; cbn [mbind option_bind] in Hp;
    [|discriminate].
  injection Hp as <-.
  pose proof (has_key_of_get _ _ _ Hc) as Hkc.
  pose proof (has_key_of_get _ _ _ Hos) as Hkos.
  pose proof (has_key_of_get _ _ _ Hentry) as Hka.
  unfold release_comment in Htext.
  destruct w as [t fr]. unfold build_package_deb. exec.
  repeat (first [ rewrite Hkc | rewrite Hc | rewrite Hrel | rewrite Hkos | rewrite Hos
                | rewrite Ham | rewrite Hka | rewrite Hentry | rewrite Hpa
                | rewrite Hnone | rewrite Hdf | rewrite Hgcc | rewrite Hgv | rewrite Htpl
                | rewrite Htext | rewrite Hbase | progress cbn [Py.is_None] ]; exec).
  cbn [banner String.eqb Ascii.eqb Bool.eqb map Py.str]. rewrite <- !app_assoc. reflexivity.
Qed.

(** C7, as the specification states it, fails on any build of one
    artifact whose two steps both exit with status 1: the run ends with
    status 0. *)
Lemma failed_steps_end_with_status_0 :
  ~ failed_step_fails_the_run (Sample.surroundings Sample.all_fail)
      ["build.py"; "v10.9.0"; "portable"].
Proof.
  intros H. apply H; vm_compute; [discriminate | reflexivity].
Qed.

(** C7, amended.  In a build of one artifact the exit statuses of the
    image build and of the container run are discarded: whatever the
    engine answers, the run prints and issues the same and ends the same;
    and a run that issues a command at all issues exactly the image build
    followed by the container run and ends with status 0.  The process
    exits non-zero only when it stops before the first command. *)
Theorem single_target_discards_exit_status (E : env) (prog version build_type : string)
    (rest : list string) (f : string) :
  configured_function E build_type = Some f ->
  single_target f = true ->
  (forall engine', run (with_engine engine' E) (command_line prog version build_type rest)
                   = run E (command_line prog version build_type rest))
  /\ (commands (trace (snd (run E (command_line prog version build_type rest)))) = []
      \/ (exit_status (fst (run E (command_line prog version build_type rest))) = 0%Z
          /\ exists b c : string,
               commands (trace (snd (run E (command_line prog version build_type rest))))
               = [(docker_build_cmd ++ b)%string; (docker_run_cmd ++ c)%string])).
Proof.
  intros Hf Hs. split; [reflexivity|].
  destruct (single_target_steps E prog version build_type rest f Hf Hs) as [H | [Hr [b [c H]]]].
  - left. unfold command_line. rewrite H. apply commands_logs.
  - right. unfold command_line. rewrite Hr, H.
    unfold at_call. cbn [trace]. rewrite commands_logs. split; [reflexivity|eauto].
Qed.

Lemma single_target_discards_exit_status_witness :
  exit_status (fst (run (Sample.surroundings Sample.all_fail)
                      ["build.py"; "v10.9.0"; "portable"])) = 0%Z.
Proof.
  destruct (single_target_discards_exit_status (Sample.surroundings Sample.all_fail)
              "build.py" "v10.9.0" "portable" [] "build_portable" eq_refl eq_refl)
    as [_ [H | [H _]]].
  - vm_compute in H. discriminate.
  - exact H.
Defined.

(** ** The container image run *)

Section DockerLoop.

Variables (E : env) (p : docker_plan) (version : string) (d : build_config)
  (am : Py.dict archmap).
Hypothesis Hd : Py.get (configurations E) "docker" = Some d.
Hypothesis Ham : archmaps d = Some am.
Hypothesis Hbase : imagename d = Some (plan_base p).

(** One turn of the loop over the architectures: three commands, and the
    two lists grow by the reference of the image under each registry. *)
Lemma docker_build_image_step (a : string) (pl : arch_plan) (t : list event)
    (fr : gmap string pyval) (imgs ghcr : list string) :
  plan_arch am a = Some pl ->
  fr !! "images" = Some (PyList imgs) ->
  fr !! "images_ghcr" = Some (PyList ghcr) ->
  exists t',
    docker_build_image E (Py.str_in "v" version) (strip_release_marker version)
      (plan_dockerfile p) (now_stamp E) a (World t fr)
    = (Ok tt,
       World t'
         (<["images_ghcr" := PyList (ghcr ++ [ghcr_reference (plan_image E p version pl)])]>
            (<["images" := PyList (imgs ++ [plan_image E p version pl])]> fr)))
    /\ commands t' = (commands t ++ plan_build_commands E p version pl)%list.
Proof.
  intros Hpl Hi Hg. unfold plan_arch in Hpl.
  destruct (Py.get am a) as [entry|] eqn:Hentry; [|discriminate].
  destruct entry as [[pa|] [dn|] [q|] [i|]]; try discriminate.
  injection Hpl as <-.
  unfold docker_build_image, docker_archmaps, docker_imagename.
  exec. rewrite Hd. exec. rewrite Ham, Hbase. exec. rewrite Hentry. exec.
  cbn [PACKAGE_ARCH DOTNET_ARCH QEMU_ARCH IMAGE_ARCH]. exec.
  rewrite Hi. exec. rewrite lookup_insert_ne by discriminate. rewrite Hg. exec.
  eexists. split; [reflexivity|].
  rewrite !commands_app. cbn [commands]. rewrite !app_nil_r, <- !app_assoc. reflexivity.
Qed.

(** The loop builds, tags and records one image per architecture of the
    plan, in order. *)
Lemma docker_build_loop (archs : list string) (plans : list arch_plan) :
  Forall2 (fun a pl => plan_arch am a = Some pl) archs plans ->
  forall (w : world) (imgs ghcr : list string),
    frame w !! "images" = Some (PyList imgs) ->
    frame w !! "images_ghcr" = Some (PyList ghcr) ->
    exists w',
      for_each archs
        (docker_build_image E (Py.str_in "v" version) (strip_release_marker version)
           (plan_dockerfile p) (now_stamp E)) w = (Ok tt, w')
      /\ commands (trace w')
         = (commands (trace w) ++ concat (map (plan_build_commands E p version) plans))%list
      /\ frame w' !! "images"
         = Some (PyList (imgs ++ map (plan_image E p version) plans))
      /\ frame w' !! "images_ghcr"
         = Some (PyList (ghcr ++ map ghcr_reference (map (plan_image E p version) plans)))
      /\ (forall x, x <> "images" -> x <> "images_ghcr" -> frame w' !! x = frame w !! x).
Proof.
  induction 1 as [|a pl archs plans Hpl _ IH]; intros w imgs ghcr Hi Hg.
  - exists w. cbn [for_each map concat]. rewrite !app_nil_r. auto.
  - destruct w as [t fr]. cbn [frame trace] in Hi, Hg |- *.
    destruct (docker_build_image_step a pl t fr imgs ghcr Hpl Hi Hg) as (t' & Hstep & Ht').
    cbn [for_each]. unfold bind at 1. rewrite Hstep.
    match goal with
    | |- context [for_each archs _ ?w1] =>
        destruct (IH w1 (imgs ++ [plan_image E p version pl])%list
                    (ghcr ++ [ghcr_reference (plan_image E p version pl)])%list)
          as (w' & Hrun & Hcmds & Hi' & Hg' & Hother)
    end.
    + cbn [frame]. rewrite lookup_insert_ne by discriminate. apply lookup_insert_eq.
    + cbn [frame]. apply lookup_insert_eq.
    + exists w'. rewrite Hrun. split; [reflexivity|].
      split; [|split; [|split]].
      * rewrite Hcmds. cbn [trace map concat]. rewrite Ht', <- !app_assoc. reflexivity.
      * rewrite Hi'. cbn [map]. rewrite <- app_assoc. reflexivity.
      * rewrite Hg'. cbn [map]. rewrite <- app_assoc. reflexivity.
      * intros x Hx1 Hx2. rewrite Hother by assumption. cbn [frame].
        rewrite !lookup_insert_ne by congruence. reflexivity.
Qed.

(** The loop over [images] pushes each of its references. *)
Lemma docker_push_loop (registry : string) (images : list string) (w : world) :
  exists t',
    for_each images (docker_push_image E registry) w = (Ok tt, World t' (frame w))
    /\ commands t' = (commands (trace w) ++ map image_push_command images)%list.
Proof.
  revert w. induction images as [|image images IH]; intros w.
  - exists (trace w). destruct w. cbn [for_each map]. rewrite app_nil_r. auto.
  - cbn [for_each]. unfold bind at 1. unfold docker_push_image at 1. exec.
    match goal with
    | |- context [for_each images _ ?w1] => destruct (IH w1) as (t' & Hrun & Ht')
    end.
    exists t'. rewrite Hrun. destruct w as [t fr]. cbn [frame trace] in *.
    split; [reflexivity|].
    rewrite Ht', !commands_app. cbn [commands map]. rewrite !app_nil_r, <- !app_assoc.
    reflexivity.
Qed.

End DockerLoop.

Lemma release_flags_eq (version : string) :
  release_flags version
  = (Py.str_in "v" version, negb (Py.str_in "v" version), Py.str_in "v" version).
Proof. unfold release_flags. destruct (Py.str_in "v" version); reflexivity. Qed.

(** A container image run over a complete document: every image is
    built and tagged, the images recorded in [images] are pushed, and the
    run stops on the name [ghcr_images], which nothing binds, with the
    references for the second registry recorded in [images_ghcr]. *)
Lemma docker_run_stops E version build_type a o p t :
  plan_docker E build_type = Some p ->
  exists w',
    build_docker E version build_type a o (World t ∅)
    = (Raise (NameError "ghcr_images"), w')
    /\ commands (trace w')
       = (commands t
          ++ concat (map (plan_build_commands E p version) (plan_archs p))
          ++ ["docker login 2>&1"]
          ++ map image_push_command (plan_images E p version))%list
    /\ frame w' !! "images" = Some (PyList (plan_images E p version))
    /\ frame w' !! "images_ghcr" = Some (PyList (plan_images_ghcr E p version))
    /\ frame w' !! "ghcr_images" = None.
Proof.
  unfold plan_docker. intros Hp.
  destruct (Py.get (configurations E) "docker") as [d|] eqn:Hd; [|discriminate].
  destruct (Py.get (configurations E) build_type) as [c|] eqn:Hc; [|discriminate].
  destruct (archmaps d) as [am|] eqn:Ham; [|discriminate].
  destruct (imagename d) as [base|] eqn:Hbase; [|discriminate].
  destruct (dockerfile c) as [df|] eqn:Hdf; [|discriminate].
  destruct (mapM (plan_arch am) (Py.keys am)) as [plans|] eqn:Hplans; [|discriminate].
  injection Hp as <-. apply mapM_Some in Hplans.
  set (p := DockerPlan base df plans).
  pose proof (docker_build_loop E p version d am Hd Ham Hbase _ _ Hplans) as Hloop.
  unfold build_docker, docker_archmaps. exec. rewrite Hd. exec. rewrite Ham. exec.
  rewrite Hc. exec. rewrite Hdf. exec.
  rewrite release_flags_eq. exec.
  match goal with
  | |- context [for_each (Py.keys am) _ ?w1] =>
      destruct (Hloop w1 [] []) as (w1' & Hrun & Hcmds & Hi & Hg & Hother)
  end.
  { cbn [frame]. rewrite lookup_insert_ne by discriminate. apply lookup_insert_eq. }
  { cbn [frame]. apply lookup_insert_eq. }
  cbn [plan_dockerfile p] in Hrun. rewrite Hrun.
  assert (Hghcr : frame w1' !! "ghcr_images" = None).
  { rewrite Hother by discriminate. cbn [frame].
    rewrite !lookup_insert_ne by discriminate. apply lookup_empty. }
  destruct w1' as [t1 fr1]. cbn [frame trace app] in Hcmds, Hi, Hg, Hghcr.
  exec. rewrite Hi. exec.
  match goal with
  | |- context [for_each ?imgs (docker_push_image E ?r) ?w2] =>
      destruct (docker_push_loop E r imgs w2) as (t2 & Hpush & Ht2)
  end.
  rewrite Hpush. cbn [frame]. exec. rewrite Hghcr.
  eexists. split; [reflexivity|].
  cbn [frame trace]. unfold plan_images, plan_images_ghcr. cbn [plan_archs p].
  split; [|auto].
  rewrite Ht2. cbn [trace]. rewrite commands_app, Hcmds, !commands_app.
  cbn [commands]. rewrite !app_nil_r, <- !app_assoc. reflexivity.
Qed.

(** *** No run reaches the manifests *)

Lemma for_each_stays {A} (body : A -> M unit) :
  (forall x w, before_manifests w -> stays_before_manifests (body x w)) ->
  forall l w, before_manifests w -> stays_before_manifests (for_each l body w).
Proof.
  intros Hbody l. induction l as [|x l IH]; intros w Hw; [exact Hw|].
  cbn [for_each]. unfold bind. specialize (Hbody x w Hw).
  destruct (body x w) as [[[]|e] w1]; [apply IH|]; exact Hbody.
Qed.

Ltac quiet :=
  repeat match goal with
         | |- _ /\ _ => split
         | |- Forall _ (_ ++ _) => apply Forall_app
         | |- Forall _ (_ :: _) => constructor
         | |- Forall _ [] => constructor
         | |- _ => rewrite !commands_app
         | |- _ => progress cbn [commands frame trace stays_before_manifests]
         | |- _ => progress unfold before_manifests
         | |- _ => rewrite !lookup_insert_ne by discriminate
         | |- _ => assumption
         | |- _ => reflexivity
         end.

Lemma docker_build_image_stays E sfx v df date a w :
  before_manifests w ->
  stays_before_manifests (docker_build_image E sfx v df date a w).
Proof.
  destruct w as [t fr]. intros [Hfr Ht]. cbn [frame trace] in Hfr, Ht.
  unfold docker_build_image, docker_archmaps, docker_imagename. exec.
  repeat (split_match; exec); quiet.
Qed.

Lemma docker_push_image_stays E registry image w :
  before_manifests w ->
  stays_before_manifests (docker_push_image E registry image w).
Proof.
  destruct w as [t fr]. intros [Hfr Ht]. cbn [frame trace] in Hfr, Ht.
  unfold docker_push_image. exec. quiet.
Qed.

(** Whatever the document and the arguments, [build_docker] does not
    return: it stops on an exception, and no manifest command has been
    issued when it does. *)
Lemma build_docker_stays E version build_type a o w :
  before_manifests w ->
  exists e w',
    build_docker E version build_type a o w = (Raise e, w')
    /\ is_Exception e = true
    /\ Forall (fun cmd => manifest_command cmd = false) (commands (trace w')).
Proof.
  destruct w as [t fr]. intros [Hfr Ht]. cbn [frame trace] in Hfr, Ht.
  unfold build_docker, docker_archmaps. rewrite release_flags_eq. exec.
  destruct (Py.get (configurations E) "docker") as [d|]; exec;
    [|eexists _, _; quiet].
  destruct (archmaps d) as [am|]; exec; [|eexists _, _; quiet].
  destruct (Py.get (configurations E) build_type) as [c|]; exec; [|eexists _, _; quiet].
  destruct (dockerfile c) as [df|]; exec; [|eexists _, _; quiet].
  match goal with
  | |- context [for_each (Py.keys am) ?body ?w1] =>
      pose proof (for_each_stays body
                    (fun x w => docker_build_image_stays E _ _ _ _ x w)
                    (Py.keys am) w1) as Hloop;
        destruct (for_each (Py.keys am) body w1) as [[[]|e] [t1 fr1]]
  end.
  2: { destruct Hloop as [He Hq]; [quiet | eexists _, _; quiet]. }
  destruct Hloop as [Hfr1 Ht1]; [quiet|]. cbn [frame trace] in Hfr1, Ht1.
  exec. destruct (fr1 !! "images") as [[images|]|]; exec.
  2: { eexists _, _; quiet. }
  2: { cbn [existsb String.eqb Ascii.eqb Bool.eqb orb]. exec. eexists _, _; quiet. }
  match goal with
  | |- context [for_each images ?body ?w2] =>
      pose proof (for_each_stays body
                    (fun x w => docker_push_image_stays E _ x w) images w2) as Hpush;
        destruct (for_each images body w2) as [[[]|e] [t2 fr2]]
  end.
  2: { destruct Hpush as [He Hq]; [quiet | eexists _, _; quiet]. }
  destruct Hpush as [Hfr2 Ht2]; [quiet|]. cbn [frame trace] in Hfr2, Ht2.
  exec. rewrite Hfr2. eexists _, _; quiet.
Qed.

(** *** The references of the two registries never coincide *)

Lemma append_cons (c : ascii) (s t : string) : String c s ++ t = String c (s ++ t).
Proof. reflexivity. Qed.

Lemma append_nil (t : string) : "" ++ t = t.
Proof. reflexivity. Qed.

(** A name followed by a colon is never that same name behind the host
    of the second registry. *)
Lemma ghcr_reference_fresh (n : nat) :
  forall base r1 r2 : string,
    String.length base <= n ->
    ghcr_reference (base ++ ":" ++ r1) <> base ++ ":" ++ r2.
Proof.
  unfold ghcr_reference.
  induction n as [n IH] using lt_wf_ind. intros base r1 r2 Hn H.
  do 8 (destruct base as [|? base];
        [ rewrite ?append_cons, ?append_nil in H; discriminate
        | rewrite !append_cons in H; injection H as Hc H; subst ]).
  rewrite ?append_cons, ?append_nil in H.
  apply (IH (String.length base)) with (base := base) (r1 := r1) (r2 := r2).
  - simpl in Hn. lia.
  - lia.
  - exact H.
Qed.

Lemma append_length (s t : string) :
  String.length (s ++ t) = String.length s + String.length t.
Proof. induction s as [|c s IH]; [reflexivity|]. rewrite append_cons. simpl. lia. Qed.

Lemma append_assoc (s t u : string) : (s ++ t) ++ u = s ++ t ++ u.
Proof.
  induction s as [|c s IH]; [reflexivity|]. rewrite !append_cons. congruence.
Qed.

Lemma append_inj_suffix (a b s : string) : a ++ s = b ++ s -> a = b.
Proof.
  revert b. induction a as [|c a IH]; intros [|c' b] H; [reflexivity| | |].
  - apply (f_equal String.length) in H. rewrite append_nil, append_cons in H.
    simpl in H. rewrite append_length in H. lia.
  - apply (f_equal String.length) in H. rewrite append_nil, append_cons in H.
    simpl in H. rewrite append_length in H. lia.
  - rewrite !append_cons in H. injection H as -> H. f_equal. apply IH, H.
Qed.

Lemma image_push_command_inj (x y : string) :
  image_push_command x = image_push_command y -> x = y.
Proof.
  unfold image_push_command. intros H. apply String.app_inj in H.
  apply append_inj_suffix in H. exact H.
Qed.

Lemma docker_tag_shape sfx base v a date :
  exists r, docker_tag sfx base v a date = base ++ ":" ++ r.
Proof. destruct sfx; eexists; reflexivity. Qed.

(** No command of a run that stops on [ghcr_images] pushes a reference
    of the second registry. *)
Lemma ghcr_reference_not_pushed E p version ref :
  In ref (plan_images_ghcr E p version) ->
  ~ In (image_push_command ref)
      (concat (map (plan_build_commands E p version) (plan_archs p))
       ++ ["docker login 2>&1"]
       ++ map image_push_command (plan_images E p version))%list.
Proof.
  unfold plan_images_ghcr, plan_images. intros Href Hin.
  apply in_map_iff in Href as (img & <- & Himg).
  apply in_map_iff in Himg as (pl & <- & Hpl).
  apply in_app_or in Hin as [Hin | [Hin | Hin]].
  - apply in_concat in Hin as (cmds & Hcmds & Hin).
    apply in_map_iff in Hcmds as ([a [[[pa dn] q] i]] & <- & _).
    cbn [plan_build_commands In] in Hin.
    destruct Hin as [H | [H | [H | []]]];
      apply (f_equal (String.prefix "docker push")) in H; cbv in H; discriminate.
  - apply (f_equal (String.prefix "docker push")) in Hin. cbv in Hin. discriminate.
  - apply in_map_iff in Hin as (img' & Heq & Hin).
    apply image_push_command_inj in Heq. subst img'.
    apply in_map_iff in Hin as (pl' & Heq & _).
    unfold plan_image in Heq.
    destruct (docker_tag_shape (Py.str_in "v" version) (plan_base p)
                (strip_release_marker version) (fst pl) (now_stamp E)) as [r1 Hr1].
    destruct (docker_tag_shape (Py.str_in "v" version) (plan_base p)
                (strip_release_marker version) (fst pl') (now_stamp E)) as [r2 Hr2].
    rewrite Hr1, Hr2 in Heq. symmetry in Heq.
    exact (ghcr_reference_fresh _ _ _ _ (le_n _) Heq).
Qed.

(** *** The manifest section, taken alone *)

(** One block of the section creates the manifest of its tag against
    both registries, each from the references of that registry. *)
Lemma docker_create_manifest_step E banner tag d base t fr images ghcr manifests :
  Py.get (configurations E) "docker" = Some d ->
  imagename d = Some base ->
  fr !! "images" = Some (PyList images) ->
  fr !! "images_ghcr" = Some (PyList ghcr) ->
  fr !! "manifests" = Some (PyList manifests) ->
  exists t',
    docker_create_manifest E banner tag (World t fr)
    = (Ok tt, World t' (<["manifests" := PyList (manifests ++ [base ++ ":" ++ tag])]> fr))
    /\ commands t'
       = (commands t ++ [ manifest_create_command "docker.io" base tag images;
                          manifest_create_command "ghcr.io" base tag ghcr ])%list.
Proof.
  intros Hd Hbase Hi Hg Hm. unfold docker_create_manifest, docker_imagename.
  exec.
  repeat (first [rewrite Hd | rewrite Hbase | rewrite Hi | rewrite Hg | rewrite Hm]; exec).
  eexists. split; [reflexivity|].
  rewrite !commands_app. cbn [commands]. rewrite !app_nil_r, <- !app_assoc. reflexivity.
Qed.

(** Entered with the two lists of references, the section would create
    the manifests of the tags of the specification, in their order, and
    keep their names for the push. *)
Lemma manifest_section_tags E version d base t fr images ghcr :
  Py.get (configurations E) "docker" = Some d ->
  imagename d = Some base ->
  fr !! "images" = Some (PyList images) ->
  fr !! "images_ghcr" = Some (PyList ghcr) ->
  exists t' fr',
    docker_build_manifests E (Py.str_in "v" version) (negb (Py.str_in "v" version))
      (Py.str_in "v" version) (strip_release_marker version) (now_stamp E) (World t fr)
    = (Ok tt, World t' fr')
    /\ commands t'
       = (commands t
          ++ concat (map (fun tag => [ manifest_create_command "docker.io" base tag images;
                                       manifest_create_command "ghcr.io" base tag ghcr ])
                       (manifest_tags E version)))%list
    /\ fr' !! "manifests"
       = Some (PyList (map (fun tag => base ++ ":" ++ tag) (manifest_tags E version))).
Proof.
  intros Hd Hbase Hi Hg. unfold docker_build_manifests, manifest_tags.
  assert (Hstep : forall banner tag t fr manifests,
    fr !! "images" = Some (PyList images) ->
    fr !! "images_ghcr" = Some (PyList ghcr) ->
    fr !! "manifests" = Some (PyList manifests) ->
    exists t',
      docker_create_manifest E banner tag (World t fr)
      = (Ok tt, World t' (<["manifests" := PyList (manifests ++ [base ++ ":" ++ tag])]> fr))
      /\ commands t'
         = (commands t ++ [ manifest_create_command "docker.io" base tag images;
                            manifest_create_command "ghcr.io" base tag ghcr ])%list)
    by (intros; eapply docker_create_manifest_step; eauto).
  destruct (Py.str_in "v" version); cbn [negb]; exec.
  - edestruct (Hstep ">>> Building dated version manifest...") as (t1 & -> & Ht1);
      [| | apply lookup_insert_eq |]; try (rewrite lookup_insert_ne by discriminate; eassumption).
    edestruct (Hstep ">>> Building version manifest...") as (t2 & -> & Ht2);
      [| | apply lookup_insert_eq |];
      try (rewrite !lookup_insert_ne by discriminate; eassumption).
    edestruct (Hstep ">>> Building latest manifest...") as (t3 & -> & Ht3);
      [| | apply lookup_insert_eq |];
      try (rewrite !lookup_insert_ne by discriminate; eassumption).
    eexists _, _. split; [reflexivity|]. split; [|apply lookup_insert_eq].
    rewrite Ht3, Ht2, Ht1, !commands_app. cbn [commands map concat app].
    rewrite !app_nil_r, <- !app_assoc. reflexivity.
  - edestruct (Hstep ">>> Building version manifest...") as (t2 & -> & Ht2);
      [| | apply lookup_insert_eq |];
      try (rewrite !lookup_insert_ne by discriminate; eassumption).
    edestruct (Hstep ">>> Building unstable manifest...") as (t3 & -> & Ht3);
      [| | apply lookup_insert_eq |];
      try (rewrite !lookup_insert_ne by discriminate; eassumption).
    eexists _, _. split; [reflexivity|]. split; [|apply lookup_insert_eq].
    rewrite Ht3, Ht2, !commands_app. cbn [commands map concat app].
    rewrite !app_nil_r, <- !app_assoc. reflexivity.
Qed.

(** The two last loops would push the manifests kept, in their order, to
    the first registry and then to the second. *)
Lemma docker_push_manifest_loop E registry host (manifests : list string) (w : world) :
  exists t',
    for_each manifests (docker_push_manifest E registry host) w = (Ok tt, World t' (frame w))
    /\ commands t' = (commands (trace w) ++ map (manifest_push_command host) manifests)%list.
Proof.
  revert w. induction manifests as [|manifest manifests IH]; intros w.
  - exists (trace w). destruct w. cbn [for_each map]. rewrite app_nil_r. auto.
  - cbn [for_each]. unfold bind at 1. unfold docker_push_manifest at 1. exec.
    match goal with
    | |- context [for_each manifests _ ?w1] => destruct (IH w1) as (t' & Hrun & Ht')
    end.
    exists t'. rewrite Hrun. destruct w as [t fr]. cbn [frame trace] in *.
    split; [reflexivity|].
    rewrite Ht', !commands_app. cbn [commands map]. rewrite !app_nil_r, <- !app_assoc.
    reflexivity.
Qed.

(** *** The run as a whole *)

Lemma docker_function_get E G :
  Py.get (function_definitions E G) "build_docker" = Some (build_docker E).
Proof. reflexivity. Qed.

Lemma configured_function_get E build_type f :
  configured_function E build_type = Some f ->
  exists c, Py.get (configurations E) build_type = Some c /\ build_function c = Some f.
Proof.
  unfold configured_function, configured.
  destruct (Py.get (configurations E) build_type) as [c|]; [eauto | discriminate].
Qed.

Lemma docker_run E prog version build_type rest :
  configured_function E build_type = Some "build_docker" ->
  run E (command_line prog version build_type rest)
  = build_docker E (version_handed E version) build_type
      (nth_error rest 0) (nth_error rest 1) (at_call E version).
Proof.
  intros Hf. apply configured_function_get in Hf as (c & Hc & Hf).
  apply (run_calls_build_function E prog version build_type rest c _ _ Hc Hf).
  apply docker_function_get.
Qed.

Lemma plan_covers_architectures E build_type p :
  plan_docker E build_type = Some p ->
  map fst (plan_archs p) = docker_architectures E.
Proof.
  unfold plan_docker, docker_architectures.
  destruct (Py.get (configurations E) "docker") as [d|]; [|discriminate].
  destruct (Py.get (configurations E) build_type) as [c|]; [|discriminate].
  destruct (archmaps d) as [am|]; [|discriminate].
  destruct (imagename d), (dockerfile c); try discriminate.
  destruct (mapM (plan_arch am) (Py.keys am)) as [plans|] eqn:Hplans; [|discriminate].
  intros [= <-]. cbn [plan_archs]. apply mapM_Some in Hplans.
  induction Hplans as [|a pl archs plans Hpl _ IH]; [reflexivity|].
  cbn [map]. rewrite IH. f_equal. unfold plan_arch in Hpl.
  destruct (Py.get am a) as [entry|]; [|discriminate].
  destruct (arch_fields entry); [|discriminate]. injection Hpl as <-. reflexivity.
Qed.

(** C1, on the code.  Over a complete document, whatever exit statuses
    the engine answers, a container image run pushes the image of every
    architecture to the first registry, a failed push not preventing the
    pushes after it, and stops there on the name [ghcr_images], which
    nothing binds: no image is pushed to the second registry and no
    manifest is pushed to either.  No report is made of a failure: the
    lines printed are the same on every engine. *)
Theorem pushes_end_with_first_registry (E : env) (prog version build_type : string)
    (rest : list string) (p : docker_plan) (engine' : list event -> string -> Z) :
  configured_function E build_type = Some "build_docker" ->
  plan_docker E build_type = Some p ->
  fst (run (with_engine engine' E) (command_line prog version build_type rest))
  = Raise (NameError "ghcr_images")
  /\ (forall image,
        In image (plan_images E p (version_handed E version)) ->
        In (image_push_command image)
          (commands (trace (snd (run (with_engine engine' E)
                                   (command_line prog version build_type rest))))))
  /\ (forall image,
        In image (plan_images_ghcr E p (version_handed E version)) ->
        ~ In (image_push_command image)
            (commands (trace (snd (run (with_engine engine' E)
                                     (command_line prog version build_type rest))))))
  /\ (forall host manifest,
        In manifest (plan_manifests E p (version_handed E version)) ->
        ~ In (manifest_push_command host manifest)
            (commands (trace (snd (run (with_engine engine' E)
                                     (command_line prog version build_type rest))))))
  /\ printed (trace (snd (run (with_engine engine' E)
                            (command_line prog version build_type rest))))
     = printed (trace (snd (run E (command_line prog version build_type rest)))).
Proof.
  intros Hf Hp.
  change (run (with_engine engine' E) (command_line prog version build_type rest))
    with (run E (command_line prog version build_type rest)).
  rewrite (docker_run E prog version build_type rest Hf).
  destruct (docker_run_stops E (version_handed E version) build_type
              (nth_error rest 0) (nth_error rest 1) p
              (map Log (master_note E version)) Hp) as (w' & Hrun & Hcmds & _).
  destruct (build_docker_stays E (version_handed E version) build_type
              (nth_error rest 0) (nth_error rest 1) (at_call E version))
    as (e & w'' & Hrun' & _ & Hquiet).
  { split; [apply lookup_empty|]. unfold at_call. cbn [trace].
    rewrite commands_logs. constructor. }
  unfold at_call in *. rewrite Hrun in Hrun' |- *. injection Hrun' as _ <-.
  cbn [fst snd]. rewrite Hcmds, commands_logs. cbn [app].
  split; [reflexivity|]. split; [|split; [|split; [|reflexivity]]].
  - intros image Hin. apply in_or_app. right. right. apply in_map, Hin.
  - intros image Hin. apply (ghcr_reference_not_pushed E p _ image Hin).
  - intros host manifest _ Hin. rewrite Hcmds, commands_logs in Hquiet. cbn [app] in Hquiet.
    pose proof (proj1 (List.Forall_forall _ _) Hquiet _ Hin) as H. discriminate.
Qed.

Lemma pushes_end_with_first_registry_witness :
  fst (run (with_engine Sample.first_push_fails (Sample.surroundings Sample.all_succeed))
         (command_line "build.py" "v10.9.0" "docker" []))
  = Raise (NameError "ghcr_images").
Proof.
  exact (proj1 (pushes_end_with_first_registry (Sample.surroundings Sample.all_succeed)
                  "build.py" "v10.9.0" "docker" [] Sample.plan Sample.first_push_fails
                  eq_refl eq_refl)).
Defined.

(** C3.  The loop that is to push the images to the second registry
    reads the name [ghcr_images].  Nothing binds that name, neither the
    module nor [build_docker], whose loop over the architectures records
    the references of the second registry under the name [images_ghcr];
    so the run stops there on a [NameError], and none of the references
    recorded is pushed. *)
Theorem ghcr_push_loop_reads_unbound_name (E : env) (prog version build_type : string)
    (rest : list string) (p : docker_plan) :
  configured_function E build_type = Some "build_docker" ->
  plan_docker E build_type = Some p ->
  fst (run E (command_line prog version build_type rest))
  = Raise (NameError "ghcr_images")
  /\ existsb (String.eqb "ghcr_images") module_names = false
  /\ frame (snd (run E (command_line prog version build_type rest))) !! "ghcr_images"
     = None
  /\ frame (snd (run E (command_line prog version build_type rest))) !! "images_ghcr"
     = Some (PyList (plan_images_ghcr E p (version_handed E version)))
  /\ (forall ref,
        In ref (plan_images_ghcr E p (version_handed E version)) ->
        ~ In (image_push_command ref)
            (commands (trace (snd (run E (command_line prog version build_type rest)))))).
Proof.
  intros Hf Hp. rewrite (docker_run E prog version build_type rest Hf).
  destruct (docker_run_stops E (version_handed E version) build_type
              (nth_error rest 0) (nth_error rest 1) p
              (map Log (master_note E version)) Hp)
    as (w' & Hrun & Hcmds & Hi & Hg & Hnone).
  unfold at_call. rewrite Hrun. cbn [fst snd].
  repeat split; try assumption; try reflexivity.
  intros ref Href. rewrite Hcmds, commands_logs. cbn [app].
  apply ghcr_reference_not_pushed, Href.
Qed.

Lemma ghcr_push_loop_reads_unbound_name_witness :
  fst (run (Sample.surroundings Sample.all_succeed) ["build.py"; "v10.9.0"; "docker"])
  = Raise (NameError "ghcr_images").
Proof.
  apply (ghcr_push_loop_reads_unbound_name (Sample.surroundings Sample.all_succeed)
           "build.py" "v10.9.0" "docker" [] Sample.plan eq_refl eq_refl).
Defined.

(** C2, on the code.  Whatever the document holds, a container image run
    does not get to the manifest section: it ends with status 1 and no
    command that creates or pushes a manifest has been issued. *)
Theorem docker_run_creates_no_manifest (E : env) (prog version build_type : string)
    (rest : list string) :
  configured_function E build_type = Some "build_docker" ->
  exit_status (fst (run E (command_line prog version build_type rest))) = 1%Z
  /\ Forall (fun cmd => manifest_command cmd = false)
       (commands (trace (snd (run E (command_line prog version build_type rest))))).
Proof.
  intros Hf. rewrite (docker_run E prog version build_type rest Hf).
  destruct (build_docker_stays E (version_handed E version) build_type
              (nth_error rest 0) (nth_error rest 1) (at_call E version))
    as (e & w' & Hrun & He & Hquiet).
  - split; [apply lookup_empty|]. unfold at_call. cbn [trace].
    rewrite commands_logs. constructor.
  - rewrite Hrun. cbn [fst snd]. split; [|exact Hquiet].
    destruct e; try reflexivity. discriminate.
Qed.

Lemma docker_run_creates_no_manifest_witness :
  Forall (fun cmd => manifest_command cmd = false)
    (commands (trace (snd (run (Sample.surroundings Sample.all_succeed)
                             ["build.py"; "v10.9.0"; "docker"])))).
Proof.
  apply (docker_run_creates_no_manifest (Sample.surroundings Sample.all_succeed)
           "build.py" "v10.9.0" "docker" [] eq_refl).
Defined.

(** *** The order of the commands that publish *)










(** The statements after the loop over [ghcr_images], entered with the
    two lists of references: the manifests of the tags are created, each
    against both registries, then pushed to the first registry and then
    to the second. *)
Lemma docker_publish_manifests_run E version d base t fr images ghcr :
  Py.get (configurations E) "docker" = Some d ->
  imagename d = Some base ->
  fr !! "images" = Some (PyList images) ->
  fr !! "images_ghcr" = Some (PyList ghcr) ->
  exists w',
    docker_publish_manifests E (Py.str_in "v" version) (negb (Py.str_in "v" version))
      (Py.str_in "v" version) (strip_release_marker version) (now_stamp E) (World t fr)
    = (Ok tt, w')
    /\ commands (trace w')
       = (commands t
          ++ concat (map (fun tag => [ manifest_create_command "docker.io" base tag images;
                                       manifest_create_command "ghcr.io" base tag ghcr ])
                       (manifest_tags E version))
          ++ map (manifest_push_command "docker.io")
               (map (fun tag => (base ++ ":" ++ tag)%string) (manifest_tags E version))
          ++ map (manifest_push_command "ghcr.io")
               (map (fun tag => (base ++ ":" ++ tag)%string) (manifest_tags E version)))%list.
Proof.
  intros Hd Hbase Hi Hg.
  destruct (manifest_section_tags E version d base t fr images ghcr Hd Hbase Hi Hg)
    as (t1 & fr1 & Hsection & Ht1 & Hm).
  unfold docker_publish_manifests. unfold bind at 1. rewrite Hsection.
  exec. rewrite Hm. exec.
  match goal with
  | |- context [for_each ?ms (docker_push_manifest E "DockerHub" ?h) ?w1] =>
      destruct (docker_push_manifest_loop E "DockerHub" h ms w1) as (t2 & Hpush1 & Ht2)
  end.
  rewrite Hpush1. cbn [frame]. exec. rewrite Hm. exec.
  match goal with
  | |- context [for_each ?ms (docker_push_manifest E "GHCR" ?h) ?w2] =>
      destruct (docker_push_manifest_loop E "GHCR" h ms w2) as (t3 & Hpush2 & Ht3)
  end.
  rewrite Hpush2. eexists. split; [reflexivity|].
  cbn [trace] in *. rewrite Ht3, Ht2, Ht1, <- !app_assoc. reflexivity.
Qed.





(** C10.  [build_portable] and [build_docker] do not read the
    architecture and the OS version: two runs that differ in these
    arguments alone, given or not, print and issue the same and end the
    same.  The container image run builds one image for each
    architecture that the document declares for [docker], in the order
    of the document, whatever architecture is given. *)
Theorem arch_and_version_arguments_ignored (E : env) (prog version build_type : string)
    (rest : list string) :
  configured_function E build_type = Some "build_portable"
  \/ configured_function E build_type = Some "build_docker" ->
  (forall rest',
     run E (command_line prog version build_type rest')
     = run E (command_line prog version build_type rest))
  /\ (forall p,
        configured_function E build_type = Some "build_docker" ->
        plan_docker E build_type = Some p ->
        map fst (plan_archs p) = docker_architectures E
        /\ commands (trace (snd (run E (command_line prog version build_type rest))))
           = (concat (map (plan_build_commands E p (version_handed E version))
                        (plan_archs p))
              ++ ["docker login 2>&1"]
              ++ map image_push_command (plan_images E p (version_handed E version)))%list).
Proof.
  intros Hf. split.
  - intros rest'. destruct Hf as [Hf | Hf].
    + apply configured_function_get in Hf as (c & Hc & Hf). unfold command_line.
      rewrite (run_calls_build_function E prog version build_type rest' c _
                 (build_portable E) Hc Hf eq_refl).
      rewrite (run_calls_build_function E prog version build_type rest c _
                 (build_portable E) Hc Hf eq_refl).
      reflexivity.
    + rewrite !(docker_run E prog version build_type _ Hf). reflexivity.
  - intros p Hd Hp. split; [eapply plan_covers_architectures, Hp|].
    rewrite (docker_run E prog version build_type rest Hd).
    destruct (docker_run_stops E (version_handed E version) build_type
                (nth_error rest 0) (nth_error rest 1) p
                (map Log (master_note E version)) Hp)
      as (w' & Hrun & Hcmds & _).
    unfold at_call. rewrite Hrun. cbn [snd]. rewrite Hcmds, commands_logs. reflexivity.
Qed.

Lemma arch_and_version_arguments_ignored_witness :
  run (Sample.surroundings Sample.all_succeed)
    (command_line "build.py" "v10.9.0" "portable" ["arm64"; "bookworm"])
  = run (Sample.surroundings Sample.all_succeed)
      (command_line "build.py" "v10.9.0" "portable" [])
  /\ map fst (plan_archs Sample.plan)
     = docker_architectures (Sample.surroundings Sample.all_succeed).
Proof.
  split.
  - exact (proj1 (arch_and_version_arguments_ignored
                    (Sample.surroundings Sample.all_succeed)
                    "build.py" "v10.9.0" "portable" [] (or_introl eq_refl))
             ["arm64"; "bookworm"]).
  - exact (proj1 (proj2 (arch_and_version_arguments_ignored
                           (Sample.surroundings Sample.all_succeed)
                           "build.py" "v10.9.0" "docker" ["arm64"] (or_intror eq_refl))
                    Sample.plan eq_refl eq_refl)).
Defined.

(** ** The version that the build functions use *)

Lemma strip_idempotent (version : string) :
  strip_release_marker (strip_release_marker version) = strip_release_marker version.
Proof. apply replace_char_absent, str_in_replace_char. Qed.

Lemma version_handed_raw (E : env) (raw : string) :
  raw <> "master" -> version_handed E raw = raw.
Proof. intros H. unfold version_handed. apply String.eqb_neq in H. rewrite H. reflexivity. Qed.

(** The references of the images of a plan, spelt out. *)
Lemma plan_images_tags E build_type p version :
  plan_docker E build_type = Some p ->
  plan_images E p version
  = if Py.str_in "v" version
    then map (fun a => plan_base p ++ ":" ++ strip_release_marker version ++ "-" ++ a
                       ++ "." ++ now_stamp E)
           (docker_architectures E)
    else map (fun a => plan_base p ++ ":" ++ strip_release_marker version ++ "-" ++ a)
           (docker_architectures E).
Proof.
  intros Hp. rewrite <- (plan_covers_architectures E build_type p Hp).
  unfold plan_images, plan_image, docker_tag.
  destruct (Py.str_in "v" version); rewrite map_map; reflexivity.
Qed.

(** The changelog of a plan is the template filled with the version
    without its marker and with the release comment of the version as it
    was handed over. *)
Lemma plan_deb_changelog E version build_type arch os p :
  plan_deb E version build_type arch os = Some p ->
  exists template build,
    format_changelog E template (strip_release_marker version) build
      (release_comment version) (now_rfc2822 E)
    = Some (deb_changelog p).
Proof.
  unfold plan_deb. intros Hp.
  repeat match type of Hp with
         | (mbind _ ?m) = Some _ =>
             let H := fresh "H" in destruct m eqn:H; cbn [mbind option_bind] in Hp;
                                   [|discriminate]
         end.
  injection Hp as <-. cbn [deb_changelog]. eauto.
Qed.

(** C5.  A version is stable exactly when the version handed to the
    build function, before the marker is taken out, holds the character
    [v]; the flags are set from that version and would all read unstable
    on the stripped one.  [v10.9.0] is stable and becomes [10.9.0];
    [2024021600] is unstable and stays as it is.  The two build functions
    that classify do so on the version as it is handed to them:
    [build_docker] names and pushes its images with the date behind the
    stripped version exactly when the version handed over holds a [v],
    and [build_package_deb] writes the changelog with the comment of a
    release for such a version and that of an unstable release
    otherwise, the comment naming the version with its marker. *)
Theorem stable_iff_marker_in_raw_version (E : env) (prog raw build_type : string)
    (rest : list string) :
  (release_flags raw = (true, false, true)
   <-> exists pre post, raw = pre ++ "v" ++ post)
  /\ (release_flags raw = (false, true, false)
      <-> ~ exists pre post, raw = pre ++ "v" ++ post)
  /\ release_flags (strip_release_marker raw) = (false, true, false)
  /\ (release_flags "v10.9.0" = (true, false, true)
      /\ strip_release_marker "v10.9.0" = "10.9.0")
  /\ (release_flags "2024021600" = (false, true, false)
      /\ strip_release_marker "2024021600" = "2024021600")
  /\ (forall p,
        configured_function E build_type = Some "build_docker" ->
        plan_docker E build_type = Some p ->
        raw <> "master" ->
        commands (trace (snd (run E (command_line prog raw build_type rest))))
        = (concat (map (plan_build_commands E p raw) (plan_archs p))
           ++ ["docker login 2>&1"]
           ++ map image_push_command
                (if Py.str_in "v" raw
                 then map (fun a => (plan_base p ++ ":" ++ strip_release_marker raw
                                     ++ "-" ++ a ++ "." ++ now_stamp E)%string)
                        (docker_architectures E)
                 else map (fun a => (plan_base p ++ ":" ++ strip_release_marker raw
                                     ++ "-" ++ a)%string)
                        (docker_architectures E)))%list)
  /\ (forall arch os p,
        configured_function E build_type = Some "build_package_deb" ->
        plan_deb E raw build_type arch os = Some p ->
        raw <> "master" ->
        In (WriteFile (repo_root_dir E ++ "/debian/changelog") (deb_changelog p))
          (trace (snd (run E (command_line prog raw build_type [arch; os]))))
        /\ exists template build,
             format_changelog E template (strip_release_marker raw) build
               (if Py.str_in "v" raw
                then "Jellyfin release " ++ raw
                     ++ ", see https://github.com/jellyfin/jellyfin/releases/" ++ raw
                     ++ " for details."
                else "Jellyin unstable release " ++ raw ++ ".")
               (now_rfc2822 E)
             = Some (deb_changelog p)).
Proof.
  assert (Hin := str_in_char "v" raw).
  split; [|split; [|split; [|split; [|split; [|split]]]]].
  - unfold release_flags. destruct (Py.str_in "v" raw).
    + split; [intros _; apply Hin; reflexivity | reflexivity].
    + split; [discriminate | intros Hex; apply Hin in Hex; discriminate].
  - unfold release_flags. destruct (Py.str_in "v" raw).
    + split; [discriminate | intros Hno; exfalso; apply Hno, Hin; reflexivity].
    + split; [intros _ Hex; apply Hin in Hex; discriminate | reflexivity].
  - unfold release_flags, strip_release_marker. rewrite str_in_replace_char. reflexivity.
  - split; reflexivity.
  - split; reflexivity.
  - intros p Hf Hp Hraw.
    rewrite (docker_run E prog raw build_type rest Hf).
    rewrite (version_handed_raw E raw Hraw).
    destruct (docker_run_stops E raw build_type (nth_error rest 0) (nth_error rest 1) p
                (map Log (master_note E raw)) Hp) as (w' & Hrun & Hcmds & _).
    unfold at_call. rewrite Hrun. cbn [snd]. rewrite Hcmds, commands_logs.
    rewrite (plan_images_tags E build_type p raw Hp). reflexivity.
  - intros arch os p Hf Hp Hraw. split.
    + apply configured_function_get in Hf as (c & Hc & Hf). unfold command_line.
      rewrite (run_calls_build_function E prog raw build_type _ c _
                 (build_package_deb E) Hc Hf eq_refl).
      rewrite (version_handed_raw E raw Hraw). cbn [nth_error].
      rewrite (package_build_run E _ _ _ _ p _ Hp). cbn [snd trace].
      apply in_or_app. right. apply in_or_app. right. left. reflexivity.
    + exact (plan_deb_changelog E raw build_type arch os p Hp).
Qed.

Lemma stable_iff_marker_in_raw_version_witness :
  commands (trace (snd (run (Sample.surroundings Sample.all_succeed)
                         (command_line "build.py" "v10.9.0" "docker" []))))
  = (concat (map (plan_build_commands (Sample.surroundings Sample.all_succeed)
                    Sample.plan "v10.9.0")
               (plan_archs Sample.plan))
     ++ ["docker login 2>&1"]
     ++ map image_push_command
          (if Py.str_in "v" "v10.9.0"
           then map (fun a => (plan_base Sample.plan ++ ":" ++ strip_release_marker "v10.9.0"
                               ++ "-" ++ a ++ "."
                               ++ now_stamp (Sample.surroundings Sample.all_succeed))%string)
                  (docker_architectures (Sample.surroundings Sample.all_succeed))
           else map (fun a => (plan_base Sample.plan ++ ":" ++ strip_release_marker "v10.9.0"
                               ++ "-" ++ a)%string)
                  (docker_architectures (Sample.surroundings Sample.all_succeed))))%list.
Proof.
  refine (proj1 (proj2 (proj2 (proj2 (proj2 (proj2
            (stable_iff_marker_in_raw_version (Sample.surroundings Sample.all_succeed)
               "build.py" "v10.9.0" "docker" []))))))
            Sample.plan eq_refl eq_refl _).
  discriminate.
Defined.

(** C9, amended.  Normalization removes every occurrence of the
    character [v], leading or not, and keeps every other character in
    its place; it is the removal of a leading marker exactly when what
    follows that marker holds no [v].  Every build function normalizes
    the version before it makes a name from it: the stub and the four
    builds of an archive do on a version what they do on its normal
    form; [build_docker] depends on the version through its normal form
    and through whether it holds a [v]; and [build_package_deb] does on a
    version what it does on its normal form, but for the release comment
    of the changelog, which is that of the version as it was handed
    over. *)
Theorem every_marker_is_removed (E : env) (G : globals) (raw : string) :
  list_ascii_of_string (strip_release_marker raw)
  = List.filter (fun a => negb (Ascii.eqb a "v")) (list_ascii_of_string raw)
  /\ (only_leading_marker_removed raw
      <-> Py.str_in "v" (strip_leading_marker raw) = false)
  /\ (forall bt a o w,
        build_package_rpm raw bt a o w
        = build_package_rpm (strip_release_marker raw) bt a o w
        /\ build_portable E raw bt a o w
           = build_portable E (strip_release_marker raw) bt a o w
        /\ build_linux E G raw bt a o w
           = build_linux E G (strip_release_marker raw) bt a o w
        /\ build_windows E G raw bt a o w
           = build_windows E G (strip_release_marker raw) bt a o w
        /\ build_macos E G raw bt a o w
           = build_macos E G (strip_release_marker raw) bt a o w)
  /\ (forall raw' bt a o w,
        strip_release_marker raw' = strip_release_marker raw ->
        Py.str_in "v" raw' = Py.str_in "v" raw ->
        build_docker E raw' bt a o w = build_docker E raw bt a o w)
  /\ (forall bt a o w,
        build_package_deb E raw bt a o w
        = build_package_deb (with_release_comment (release_comment raw) E)
            (strip_release_marker raw) bt a o w).
Proof.
  split; [apply replace_char_chars|]. split; [|split; [|split]].
  - unfold only_leading_marker_removed, strip_release_marker. split.
    + intros <-. apply str_in_replace_char.
    + intros H. destruct raw as [|a s]; [reflexivity|].
      rewrite replace_char_cons.
      destruct (Ascii.eqb_spec a "v") as [->|Hne].
      * simpl in H |- *. apply replace_char_absent, H.
      * assert (Hs : strip_leading_marker (String a s) = String a s).
        { destruct a as [[] [] [] [] [] [] [] []]; try reflexivity. congruence. }
        rewrite Hs in H |- *.
        pose proof (replace_char_absent "v" _ H) as R.
        rewrite replace_char_cons in R.
        destruct (Ascii.eqb_spec a "v"); [congruence | exact R].
  - intros bt a o w. split; [reflexivity|].
    unfold build_portable, build_linux, build_windows, build_macos, archive_commands.
    rewrite strip_idempotent. repeat split; reflexivity.
  - intros raw' bt a o w Hs Hv. unfold build_docker.
    rewrite !release_flags_eq, Hs, Hv. reflexivity.
  - intros bt a o w. unfold build_package_deb. rewrite strip_idempotent.
    unfold str_format, open_read, os_system, with_release_comment, release_comment.
    cbn [configurations repo_root_dir now_rfc2822 read_file format_changelog engine].
    reflexivity.
Qed.

Lemma every_marker_is_removed_witness :
  build_docker (Sample.surroundings Sample.all_succeed) "10.9.0v" "docker" None None start
  = build_docker (Sample.surroundings Sample.all_succeed) "v10.9.0" "docker" None None start.
Proof.
  exact (proj1 (proj2 (proj2 (proj2
           (every_marker_is_removed (Sample.surroundings Sample.all_succeed)
              (Globals None None) "v10.9.0"))))
           "10.9.0v" "docker" None None start eq_refl eq_refl).
Defined.

(** * Further properties *)

(** ** The command line *)

(** X1.  A command line without a version or without a build type prints
    the error, an empty line and the usage text, and ends with status 1
    before the configuration is looked into. *)
Theorem missing_arguments_print_usage (E : env) (argv : list string) :
  length argv < 3 ->
  run E argv
  = (Raise (SystemExit 1),
     World (map Log (missing_arguments_message :: "" :: usage_lines E (hd "" argv))) ∅).
Proof.
  intros H. destruct argv as [|a0 [|a1 [|a2 rest]]]; cbn [length] in H; try lia;
    reflexivity.
Qed.

Lemma missing_arguments_print_usage_witness :
  exit_status (fst (run (Sample.surroundings Sample.all_succeed) ["build.py"; "v10.9.0"]))
  = 1%Z.
Proof.
  rewrite (missing_arguments_print_usage (Sample.surroundings Sample.all_succeed)
             ["build.py"; "v10.9.0"]); [reflexivity | cbn [length]; lia].
Defined.

(** X2.  Only the first two arguments after the build type are read:
    whatever follows them changes nothing of the run. *)
Theorem surplus_arguments_ignored (E : env) (prog version build_type a o : string)
    (surplus : list string) :
  run E (prog :: version :: build_type :: a :: o :: surplus)
  = run E [prog; version; build_type; a; o].
Proof. reflexivity. Qed.

(** X3.  No exit status of a command is ever read: on every command
    line and every document, the run prints, writes and issues the same
    and ends the same whatever the engine answers. *)
Theorem exit_statuses_never_read (E : env) (engine' : list event -> string -> Z)
    (argv : list string) :
  run (with_engine engine' E) argv = run E argv.
Proof. reflexivity. Qed.

(** X4.  Normalization is idempotent, leaves no [v] in the version and
    never makes it longer. *)
Theorem normalization_idempotent (version : string) :
  strip_release_marker (strip_release_marker version) = strip_release_marker version
  /\ Py.str_in "v" (strip_release_marker version) = false
  /\ String.length (strip_release_marker version) <= String.length version.
Proof.
  unfold strip_release_marker. split; [|split].
  - apply replace_char_absent, str_in_replace_char.
  - apply str_in_replace_char.
  - induction version as [|c s IH]; [reflexivity|].
    rewrite replace_char_cons. destruct (Ascii.eqb c "v"); simpl; lia.
Qed.

(** ** What was traced before does not matter *)

Lemma blind_ret {A} (a : A) : trace_blind (ret a).
Proof. intros t0 [t fr]. reflexivity. Qed.

Lemma blind_raise {A} (e : exn) : trace_blind (@raise A e).
Proof. intros t0 [t fr]. reflexivity. Qed.

Lemma blind_emit (e : event) : trace_blind (emit e).
Proof. intros t0 [t fr]. unfold emit, prepend. cbn. rewrite app_assoc. reflexivity. Qed.

Lemma blind_store x v : trace_blind (store_name x v).
Proof. intros t0 [t fr]. reflexivity. Qed.

Lemma blind_load x : trace_blind (load_name x).
Proof.
  intros t0 [t fr]. unfold load_name, prepend. cbn [trace frame].
  destruct (fr !! x); [reflexivity|].
  destruct (existsb (String.eqb x) module_names); reflexivity.
Qed.

Lemma blind_bind {A B} (m : M A) (k : A -> M B) :
  trace_blind m -> (forall a, trace_blind (k a)) -> trace_blind (bind m k).
Proof.
  intros Hm Hk t0 w. unfold bind. rewrite Hm. unfold prepend at 1.
  destruct (m w) as [[a|e] w1]; cbn [fst snd]; [apply Hk | reflexivity].
Qed.

Lemma blind_try {A} (m : M A) (h : exn -> M A) :
  trace_blind m -> (forall e, trace_blind (h e)) -> trace_blind (try_except m h).
Proof.
  intros Hm Hh t0 w. unfold try_except. rewrite Hm. unfold prepend at 1.
  destruct (m w) as [[a|e] w1]; cbn [fst snd]; [reflexivity|].
  destruct (is_Exception e); [apply Hh | reflexivity].
Qed.

(** A command whose exit status is dropped. *)
Lemma blind_system {B} E cmd (k : M B) :
  trace_blind k -> trace_blind (bind (os_system E cmd) (fun _ => k)).
Proof.
  intros Hk t0 [t fr]. unfold bind, os_system. cbn [trace frame].
  rewrite <- app_assoc. apply (Hk t0 (World (t ++ [System cmd]) fr)).
Qed.

Lemma blind_for_each {A} (l : list A) (body : A -> M unit) :
  (forall x, trace_blind (body x)) -> trace_blind (for_each l body).
Proof.
  intros Hbody. induction l as [|x l IH]; cbn [for_each]; [apply blind_ret|].
  apply blind_bind; auto.
Qed.

Ltac blind :=
  repeat (intros;
          lazymatch goal with
          | |- trace_blind (bind (os_system _ _) (fun _ => _)) => apply blind_system
          | |- trace_blind (bind _ _) => apply blind_bind
          | |- trace_blind (try_except _ _) => apply blind_try
          | |- trace_blind (for_each _ _) => apply blind_for_each
          | |- trace_blind (ret _) => apply blind_ret
          | |- trace_blind (raise _) => apply blind_raise
          | |- trace_blind (exit _) => apply blind_raise
          | |- trace_blind (emit _) => apply blind_emit
          | |- trace_blind (log _) => apply blind_emit
          | |- trace_blind (open_write _ _) => apply blind_emit
          | |- trace_blind (store_name _ _) => apply blind_store
          | |- trace_blind (load_name _) => apply blind_load
          | |- trace_blind (match ?x with _ => _ end) => destruct x
          | |- trace_blind (?f _ _ _ _ _ _ _ _) => unfold f
          | |- trace_blind (?f _ _ _ _ _ _ _) => unfold f
          | |- trace_blind (?f _ _ _ _ _ _) => unfold f
          | |- trace_blind (?f _ _ _ _ _) => unfold f
          | |- trace_blind (?f _ _ _ _) => unfold f
          | |- trace_blind (?f _ _ _) => unfold f
          | |- trace_blind (?f _ _) => unfold f
          | |- trace_blind (?f _) => unfold f
          | |- trace_blind ?f => unfold f
          end).

Lemma blind_build_portable E v bt a o : trace_blind (build_portable E v bt a o).
Proof. blind. Qed.

Lemma blind_build_package_rpm v bt a o : trace_blind (build_package_rpm v bt a o).
Proof. blind. Qed.

Lemma blind_build_package_deb E v bt a o : trace_blind (build_package_deb E v bt a o).
Proof. blind. Qed.

Lemma blind_build_linux E G v bt a o : trace_blind (build_linux E G v bt a o).
Proof. blind. Qed.

Lemma blind_build_windows E G v bt a o : trace_blind (build_windows E G v bt a o).
Proof. blind. Qed.

Lemma blind_build_macos E G v bt a o : trace_blind (build_macos E G v bt a o).
Proof. blind. Qed.

Lemma blind_build_docker E v bt a o : trace_blind (build_docker E v bt a o).
Proof. blind. Qed.

Lemma blind_function E G f build :
  Py.get (function_definitions E G) f = Some build ->
  forall v bt a o, trace_blind (build v bt a o).
Proof.
  unfold function_definitions. cbn [Py.get].
  destruct (String.eqb f "build_package_deb");
    [intros [= <-]; intros; apply blind_build_package_deb|].
  destruct (String.eqb f "build_package_rpm");
    [intros [= <-]; intros; apply blind_build_package_rpm|].
  destruct (String.eqb f "build_portable");
    [intros [= <-]; intros; apply blind_build_portable|].
  destruct (String.eqb f "build_linux");
    [intros [= <-]; intros; apply blind_build_linux|].
  destruct (String.eqb f "build_windows");
    [intros [= <-]; intros; apply blind_build_windows|].
  destruct (String.eqb f "build_macos");
    [intros [= <-]; intros; apply blind_build_macos|].
  destruct (String.eqb f "build_docker");
    [intros [= <-]; intros; apply blind_build_docker|].
  discriminate.
Qed.

(** X5.  [master] is another name for the hour the clock gives: past the
    checks of the build type and of its build function, a run on [master]
    prints the note and then does what a run on that hour does. *)
Theorem master_is_the_hour_stamp (E : env) (prog build_type : string)
    (rest : list string) :
  build_type_exists E build_type = true ->
  function_in_table E build_type = true ->
  now_hour E <> "master" ->
  run E (command_line prog "master" build_type rest)
  = prepend [Log (master_note_line E)]
      (run E (command_line prog (now_hour E) build_type rest)).
Proof.
  unfold build_type_exists, function_in_table, configured_function, configured.
  intros _ Ht Hclock.
  destruct (Py.get (configurations E) build_type) as [c|] eqn:Hc; [|discriminate].
  destruct (build_function c) as [f|] eqn:Hf; [|discriminate].
  destruct (in_table_get E (Globals (nth_error rest 0) (nth_error rest 1)) f Ht)
    as [build Hb].
  unfold command_line.
  rewrite !(run_calls_build_function E prog _ build_type rest c f build Hc Hf Hb).
  unfold version_handed, at_call, master_note.
  apply String.eqb_neq in Hclock. rewrite Hclock. cbn [String.eqb Ascii.eqb Bool.eqb map].
  apply (blind_function E _ f build Hb _ _ _ _ [Log (master_note_line E)] (World [] ∅)).
Qed.

Lemma master_is_the_hour_stamp_witness :
  run (Sample.surroundings Sample.all_succeed)
    (command_line "build.py" "master" "portable" [])
  = prepend [Log (master_note_line (Sample.surroundings Sample.all_succeed))]
      (run (Sample.surroundings Sample.all_succeed)
         (command_line "build.py" (now_hour (Sample.surroundings Sample.all_succeed))
            "portable" [])).
Proof.
  apply (master_is_the_hour_stamp (Sample.surroundings Sample.all_succeed)
           "build.py" "portable" []); [reflexivity | reflexivity | discriminate].
Defined.

(** ** Keys that the document lacks *)

(** X6.  [build_portable] stops on the first key of the build type that
    is missing, in the order dockerfile, imagename, archivetypes: the
    [KeyError] of that key is not caught, nothing is built and the
    process ends with status 1. *)
Theorem portable_stops_on_missing_key (E : env) (prog version build_type : string)
    (rest : list string) (c : build_config) (key : string) :
  Py.get (configurations E) build_type = Some c ->
  build_function c = Some "build_portable" ->
  first_missing_portable_key c = Some key ->
  run E (command_line prog version build_type rest)
  = (Raise (KeyError (Py.repr key)),
     World (map Log (master_note E version
                     ++ ["> Building a portable .NET archive..."; ""])) ∅).
Proof.
  intros Hc Hf Hkey. unfold command_line.
  rewrite (run_calls_build_function E prog version build_type rest c _
             (build_portable E) Hc Hf eq_refl).
  unfold build_portable, at_call, first_missing_portable_key in *. exec. rewrite Hc. exec.
  rewrite map_app, <- !app_assoc.
  destruct (dockerfile c), (imagename c), (archivetypes c);
    try discriminate; injection Hkey as <-; reflexivity.
Qed.

Lemma portable_stops_on_missing_key_witness :
  fst (run Sample2.surroundings (command_line "build.py" "v10.9.0" "portable" []))
  = Raise (KeyError "'imagename'").
Proof.
  rewrite (portable_stops_on_missing_key Sample2.surroundings "build.py" "v10.9.0"
             "portable" [] Sample2.portable "imagename" eq_refl eq_refl eq_refl).
  reflexivity.
Defined.

(** X7.  [build_docker] reads the architectures and the image name from
    the entry called [docker], whatever build type it runs for: without
    that entry the run stops on [KeyError: 'docker'] right after its
    banner. *)
Theorem docker_entry_is_required (E : env) (prog version build_type : string)
    (rest : list string) :
  configured_function E build_type = Some "build_docker" ->
  Py.get (configurations E) "docker" = None ->
  run E (command_line prog version build_type rest)
  = (Raise (KeyError "'docker'"),
     World (map Log (master_note E version ++ ["> Building Docker images..."; ""])) ∅).
Proof.
  intros Hf Hd. rewrite (docker_run E prog version build_type rest Hf).
  unfold build_docker, docker_archmaps, at_call. exec. rewrite Hd.
  rewrite map_app, <- !app_assoc. reflexivity.
Qed.

Lemma docker_entry_is_required_witness :
  fst (run Sample2.surroundings (command_line "build.py" "v10.9.0" "container" []))
  = Raise (KeyError "'docker'").
Proof.
  rewrite (docker_entry_is_required Sample2.surroundings "build.py" "v10.9.0"
             "container" [] eq_refl eq_refl).
  reflexivity.
Defined.

(** X8.  [build_package_rpm] checks nothing and builds nothing: whatever
    architecture and OS version are given, known or not, the run prints
    the banner of the function, issues no command and ends with
    status 0. *)
Theorem rpm_stub_checks_nothing (E : env) (prog version build_type : string)
    (rest : list string) :
  configured_function E build_type = Some "build_package_rpm" ->
  fst (run E (command_line prog version build_type rest)) = Ok tt
  /\ exit_status (fst (run E (command_line prog version build_type rest))) = 0%Z
  /\ commands (trace (snd (run E (command_line prog version build_type rest)))) = []
  /\ printed (trace (snd (run E (command_line prog version build_type rest))))
     = (master_note E version
        ++ [ ("> Building an " ++ Py.str_opt (nth_error rest 0) ++ " "
              ++ build_type ++ " .rpm package...")%string; "" ])%list.
Proof.
  intros Hf. apply configured_function_get in Hf as (c & Hc & Hf).
  unfold command_line.
  rewrite (stubbed_function_runs E prog version build_type rest c Hc Hf).
  cbn [fst snd trace exit_status]. rewrite commands_logs, printed_logs. auto.
Qed.

Lemma rpm_stub_checks_nothing_witness :
  exit_status (fst (run (Sample.surroundings Sample.all_succeed)
                      (command_line "build.py" "v10.9.0" "fedora" ["riscv"; "sid"])))
  = 0%Z.
Proof.
  apply (rpm_stub_checks_nothing (Sample.surroundings Sample.all_succeed)
           "build.py" "v10.9.0" "fedora" ["riscv"; "sid"] eq_refl).
Defined.

(** ** The package build *)

Lemma effects_app (t u : list event) : effects (t ++ u) = (effects t ++ effects u)%list.
Proof. induction t as [|[] t IH]; simpl; congruence. Qed.

Lemma effects_logs (lines : list string) : effects (map Log lines) = [].
Proof. induction lines; simpl; auto. Qed.

(** X9.  A package build over valid arguments and a complete document,
    whose [releases] bind the OS version to a string, writes the
    changelog made from the template, with the version
    without its marker, the first three letters of the build type
    followed by the OS version without its dots, and the comment of the
    release; then it builds the image with the values of the document
    for the architecture and the OS version given, runs it under the
    name of the image, and returns. *)
Theorem package_build_writes_changelog_then_builds (E : env)
    (prog version build_type arch os : string) (p : deb_plan) :
  configured_function E build_type = Some "build_package_deb" ->
  plan_deb E (version_handed E version) build_type arch os = Some p ->
  run E (command_line prog version build_type [arch; os])
  = (Ok tt,
     World (map Log (master_note E version
                     ++ banner "build_package_deb" build_type (Some arch))
            ++ [ WriteFile (repo_root_dir E ++ "/debian/changelog") (deb_changelog p);
                 System (deb_build_command E p (version_handed E version)
                           build_type arch os);
                 System (deb_run_command E p (version_handed E version)
                           build_type arch os) ]) ∅).
Proof.
  intros Hf Hp. apply configured_function_get in Hf as (c & Hc & Hf).
  unfold command_line.
  rewrite (run_calls_build_function E prog version build_type _ c _
             (build_package_deb E) Hc Hf eq_refl).
  cbn [nth_error]. rewrite (package_build_run E _ _ _ _ p _ Hp).
  unfold at_call. cbn [trace frame]. rewrite map_app, <- !app_assoc. reflexivity.
Qed.

Lemma package_build_writes_changelog_then_builds_witness :
  fst (run (Sample.surroundings Sample.all_succeed)
         (command_line "build.py" "v10.9.0" "debian" ["arm64"; "bookworm"]))
  = Ok tt.
Proof.
  rewrite (package_build_writes_changelog_then_builds
             (Sample.surroundings Sample.all_succeed)
             "build.py" "v10.9.0" "debian" "arm64" "bookworm"
             (DebPlan "12" "arm64" "debian/docker/Dockerfile" "12"
                "changelog 10.9.0-deb12 Jellyfin release v10.9.0, see https://github.com/jellyfin/jellyfin/releases/v10.9.0 for details. Fri, 16 Feb 2024 12:00:00 +0000"
                "jellyfin-builder-debian")
             eq_refl eq_refl).
  reflexivity.
Defined.

Ltac finish_effects :=
  cbn [fst snd trace]; rewrite ?effects_app; cbn [effects]; rewrite ?app_nil_r;
  first [ left; reflexivity
        | right; left; eexists; split; reflexivity
        | right; right; rewrite <- ?app_assoc; eexists _, _, _; split; reflexivity ].

Lemma build_package_deb_effects E v bt a o w :
  let rw := build_package_deb E v bt a o w in
  effects (trace (snd rw)) = effects (trace w)
  \/ (exists text,
        effects (trace (snd rw))
        = (effects (trace w)
           ++ [WriteFile (repo_root_dir E ++ "/debian/changelog") text])%list
        /\ fst rw = Raise (KeyError "'imagename'"))
  \/ (exists text b c : string,
        effects (trace (snd rw))
        = (effects (trace w)
           ++ [ WriteFile (repo_root_dir E ++ "/debian/changelog") text;
                System (docker_build_cmd ++ b); System (docker_run_cmd ++ c) ])%list
        /\ fst rw = Ok tt).
Proof.
  cbv zeta. unfold build_package_deb. exec.
  repeat (split_match; exec); finish_effects.
Qed.

(** X10.  A package build touches the world in one of three ways only:
    not at all; it writes the changelog and stops on the missing
    [imagename] of the build type, which it looks up after the write;
    or it writes the changelog, builds the image, runs the container and
    returns.  The changelog is never written after a command, nor twice. *)
Theorem package_build_effects (E : env) (prog version build_type : string)
    (rest : list string) :
  configured_function E build_type = Some "build_package_deb" ->
  effects (trace (snd (run E (command_line prog version build_type rest)))) = []
  \/ (exists text,
        effects (trace (snd (run E (command_line prog version build_type rest))))
        = [WriteFile (repo_root_dir E ++ "/debian/changelog") text]
        /\ fst (run E (command_line prog version build_type rest))
           = Raise (KeyError "'imagename'"))
  \/ (exists text b c : string,
        effects (trace (snd (run E (command_line prog version build_type rest))))
        = [ WriteFile (repo_root_dir E ++ "/debian/changelog") text;
            System (docker_build_cmd ++ b); System (docker_run_cmd ++ c) ]
        /\ fst (run E (command_line prog version build_type rest)) = Ok tt).
Proof.
  intros Hf. apply configured_function_get in Hf as (c & Hc & Hf).
  unfold command_line.
  rewrite (run_calls_build_function E prog version build_type _ c _
             (build_package_deb E) Hc Hf eq_refl).
  pose proof (build_package_deb_effects E (version_handed E version) build_type
                (nth_error rest 0) (nth_error rest 1) (at_call E version)) as H.
  cbv zeta in H.
  assert (Hq : effects (trace (at_call E version)) = [])
    by (unfold at_call; cbn [trace]; apply effects_logs).
  rewrite !Hq in H. exact H.
Qed.

Lemma package_build_effects_witness :
  effects (trace (snd (run (Sample.surroundings Sample.all_succeed)
                         (command_line "build.py" "v10.9.0" "debian" ["riscv"; "sid"]))))
  = [].
Proof.
  destruct (package_build_effects (Sample.surroundings Sample.all_succeed)
              "build.py" "v10.9.0" "debian" ["riscv"; "sid"] eq_refl)
    as [H | [(text & _ & H) | (text & b & c & _ & H)]].
  - exact H.
  - vm_compute in H. discriminate.
  - vm_compute in H. discriminate.
Defined.

Lemma build_package_deb_needs_template E v bt a o w :
  read_file E (repo_root_dir E ++ "/debian/changelog.in") = None ->
  effects (trace (snd (build_package_deb E v bt a o w))) = effects (trace w)
  /\ exit_status (fst (build_package_deb E v bt a o w)) = 1%Z.
Proof.
  intros Hread. unfold build_package_deb. exec. rewrite Hread.
  repeat (split_match; exec);
    cbn [fst snd trace exit_status]; rewrite ?effects_app; cbn [effects];
    rewrite ?app_nil_r; auto.
Qed.

(** X11.  Without a readable changelog template a package build writes
    nothing, issues no command and ends with status 1, whatever the
    arguments are. *)
Theorem package_build_needs_template (E : env) (prog version build_type : string)
    (rest : list string) :
  configured_function E build_type = Some "build_package_deb" ->
  read_file E (repo_root_dir E ++ "/debian/changelog.in") = None ->
  effects (trace (snd (run E (command_line prog version build_type rest)))) = []
  /\ exit_status (fst (run E (command_line prog version build_type rest))) = 1%Z.
Proof.
  intros Hf Hread. apply configured_function_get in Hf as (c & Hc & Hf).
  unfold command_line.
  rewrite (run_calls_build_function E prog version build_type _ c _
             (build_package_deb E) Hc Hf eq_refl).
  destruct (build_package_deb_needs_template E (version_handed E version) build_type
              (nth_error rest 0) (nth_error rest 1) (at_call E version) Hread) as [H1 H2].
  rewrite H1, H2. unfold at_call. cbn [trace]. rewrite effects_logs. auto.
Qed.

Lemma package_build_needs_template_witness :
  exit_status (fst (run Sample2.surroundings
                      (command_line "build.py" "v10.9.0" "ubuntu" ["arm64"; "noble"])))
  = 1%Z.
Proof.
  apply (package_build_needs_template Sample2.surroundings
           "build.py" "v10.9.0" "ubuntu" ["arm64"; "noble"] eq_refl eq_refl).
Defined.

(** ** The portable archive builds *)

Lemma archive_check_passes E G bt arch c am entry pa dn w :
  Py.get (configurations E) bt = Some c ->
  archmaps c = Some am ->
  Py.get am arch = Some entry ->
  PACKAGE_ARCH entry = Some pa ->
  Py.is_None pa = false ->
  DOTNET_ARCH entry = Some dn ->
  check_archive_arch E G bt (Some arch) w = (Ok (pa, dn), w).
Proof.
  intros Hc Ham Hentry Hpa Hnone Hdn.
  pose proof (has_key_of_get _ _ _ Hentry) as Hk.
  destruct w as [t fr]. unfold check_archive_arch. exec.
  repeat (first [ rewrite Hc | rewrite Ham | rewrite Hk | rewrite Hentry
                | rewrite Hpa | rewrite Hnone | rewrite Hdn ]; exec).
  reflexivity.
Qed.

Lemma archive_commands_run E dotnet v bt arch c df base types pa dn t fr :
  Py.get (configurations E) bt = Some c ->
  dockerfile c = Some df ->
  imagename c = Some base ->
  archivetypes c = Some types ->
  archive_commands E dotnet v bt (Some arch) pa dn (World t fr)
  = (Ok tt,
     World (t ++ [ System (archive_build_command E
                             (ArchivePlan (Py.str pa) dn df base types) v bt arch);
                   System (archive_run_command E
                             (ArchivePlan (Py.str pa) dn df base types)
                             dotnet v bt arch) ]) fr).
Proof.
  intros Hc Hdf Hbase Htypes. unfold archive_commands. exec.
  repeat (first [ rewrite Hc | rewrite Hdf | rewrite Hbase | rewrite Htypes ]; exec).
  rewrite <- !app_assoc. reflexivity.
Qed.

(** X12.  The three portable archive builds do the same but for their
    banner and the value of [DOTNET_TYPE]: over a known architecture and
    a complete document each builds the image of the build type under
    the name made of the image name, the version without its marker, the
    architecture and the build type, runs it under that name with the
    two architecture names of the document, and returns; an OS version
    given after the architecture is not read. *)
Theorem archive_build_commands (E : env) (prog version build_type arch : string)
    (rest : list string) (f dotnet : string) (p : archive_plan) :
  configured_function E build_type = Some f ->
  dotnet_type f = Some dotnet ->
  plan_archive E build_type arch = Some p ->
  fst (run E (command_line prog version build_type (arch :: rest))) = Ok tt
  /\ commands (trace (snd (run E (command_line prog version build_type (arch :: rest)))))
     = [ archive_build_command E p (version_handed E version) build_type arch;
         archive_run_command E p dotnet (version_handed E version) build_type arch ].
Proof.
  intros Hf Ht Hp. apply configured_function_get in Hf as (c & Hc & Hf).
  unfold plan_archive in Hp. rewrite Hc in Hp. cbn [mbind option_bind] in Hp.
  destruct (archmaps c) as [am|] eqn:Ham; cbn [mbind option_bind] in Hp; [|discriminate].
  destruct (Py.get am arch) as [entry|] eqn:Hentry; cbn [mbind option_bind] in Hp;
    [|discriminate].
  destruct (PACKAGE_ARCH entry) as [pa|] eqn:Hpa; cbn [mbind option_bind] in Hp;
    [|discriminate].
  unfold rendered in Hp.
  destruct (Py.is_None pa) eqn:Hnone; cbn [mbind option_bind] in Hp; [discriminate|].
  destruct (DOTNET_ARCH entry) as [dn|] eqn:Hdn; cbn [mbind option_bind] in Hp;
    [|discriminate].
  destruct (dockerfile c) as [df|] eqn:Hdf; cbn [mbind option_bind] in Hp; [|discriminate].
  destruct (imagename c) as [base|] eqn:Hbase; cbn [mbind option_bind] in Hp;
    [|discriminate].
  destruct (archivetypes c) as [types|] eqn:Htypes; cbn [mbind option_bind] in Hp;
    [|discriminate].
  injection Hp as <-.
  set (G := Globals (nth_error (arch :: rest) 0) (nth_error (arch :: rest) 1)).
  pose proof (fun w => archive_check_passes E G build_type arch c am entry pa dn w
                         Hc Ham Hentry Hpa Hnone Hdn) as Hcheck.
  pose proof (fun d v t fr => archive_commands_run E d v build_type arch c df base types
                                pa dn t fr Hc Hdf Hbase Htypes) as Hcmds.
  unfold command_line, dotnet_type in *.
  destruct (String.eqb_spec f "build_linux") as [->|_].
  { injection Ht as <-.
    rewrite (run_calls_build_function E prog version build_type _ c _
               (build_linux E G) Hc Hf eq_refl).
    unfold build_linux, at_call. cbn [nth_error]. exec.
    rewrite Hcheck. exec. rewrite Hcmds. cbn [fst snd trace].
    rewrite !commands_app, commands_logs. auto. }
  destruct (String.eqb_spec f "build_windows") as [->|_].
  { injection Ht as <-.
    rewrite (run_calls_build_function E prog version build_type _ c _
               (build_windows E G) Hc Hf eq_refl).
    unfold build_windows, at_call. cbn [nth_error global_build_arch G]. exec.
    rewrite Hcheck. exec. rewrite Hcmds. cbn [fst snd trace].
    rewrite !commands_app, commands_logs. auto. }
  destruct (String.eqb_spec f "build_macos") as [->|_]; [|discriminate].
  injection Ht as <-.
  rewrite (run_calls_build_function E prog version build_type _ c _
             (build_macos E G) Hc Hf eq_refl).
  unfold build_macos, at_call. cbn [nth_error]. exec.
  rewrite Hcheck. exec. rewrite Hcmds. cbn [fst snd trace].
  rewrite !commands_app, commands_logs. auto.
Qed.

Lemma archive_build_commands_witness :
  fst (run (Sample.surroundings Sample.all_succeed)
         (command_line "build.py" "v10.9.0" "linux" ["arm64"; "bookworm"]))
  = Ok tt.
Proof.
  apply (archive_build_commands (Sample.surroundings Sample.all_succeed)
           "build.py" "v10.9.0" "linux" "arm64" ["bookworm"] "build_linux" "linux"
           (ArchivePlan "arm64" "arm64" "portable/Dockerfile" "jellyfin-builder-linux"
              "targz")
           eq_refl eq_refl eq_refl).
Defined.

(** X13.  A table that the document lacks is reported as an invalid
    argument: without [releases] a package build, and without [archmaps]
    a portable archive build, prints the name of the missing key after
    [Invalid/unsupported arguments:], issues no command and ends with
    status 1. *)
Theorem missing_table_reported_as_invalid_argument (E : env)
    (prog version build_type : string) (rest : list string)
    (c : build_config) (f key : string) :
  Py.get (configurations E) build_type = Some c ->
  build_function c = Some f ->
  first_missing_table f c = Some key ->
  printed (trace (snd (run E (command_line prog version build_type rest))))
  = (master_note E version ++ banner f build_type (nth_error rest 0)
     ++ [invalid_arguments_message (Py.repr key)])%list
  /\ commands (trace (snd (run E (command_line prog version build_type rest)))) = []
  /\ exit_status (fst (run E (command_line prog version build_type rest))) = 1%Z.
Proof.
  intros Hc Hf Hkey. unfold command_line, first_missing_table in *.
  pose proof (has_key_of_get _ _ _ Hc) as Hk.
  set (G := Globals (nth_error rest 0) (nth_error rest 1)).
  assert (Hcheck : forall a w,
            archmaps c = None ->
            check_archive_arch E G build_type a w
            = (Raise (SystemExit 1),
               World (trace w ++ [Log (invalid_arguments_message "'archmaps'")]) (frame w))).
  { intros a w Ham. unfold check_archive_arch. exec. rewrite Hc. exec. rewrite Ham.
    reflexivity. }
  destruct (String.eqb_spec f "build_package_deb") as [->|Hne].
  { destruct (releases c) eqn:Hrel; [discriminate|]. injection Hkey as <-.
    rewrite (run_calls_build_function E prog version build_type _ c _
               (build_package_deb E) Hc Hf eq_refl).
    unfold build_package_deb, at_call. exec.
    repeat (first [rewrite Hk | rewrite Hc | rewrite Hrel]; exec).
    cbn [banner String.eqb Ascii.eqb Bool.eqb fst snd trace exit_status].
    rewrite !printed_app, !commands_app, printed_logs, commands_logs.
    cbn [printed commands str_exn]. rewrite <- ?app_assoc. cbn [app].
    repeat split; reflexivity. }
  destruct (needs_arch f) eqn:Hn; [|discriminate].
  destruct (archmaps c) eqn:Ham; [discriminate|]. injection Hkey as <-.
  apply needs_arch_cases in Hn as [-> | [-> | [-> | ->]]].
  - congruence.
  - rewrite (run_calls_build_function E prog version build_type _ c _
               (build_linux E G) Hc Hf eq_refl).
    unfold build_linux, at_call. exec. rewrite Hcheck by (first [assumption | reflexivity]).
    cbn [banner String.eqb Ascii.eqb Bool.eqb fst snd trace exit_status].
    rewrite !printed_app, !commands_app, printed_logs, commands_logs.
    cbn [printed commands str_exn]. rewrite <- ?app_assoc. cbn [app].
    repeat split; reflexivity.
  - rewrite (run_calls_build_function E prog version build_type _ c _
               (build_windows E G) Hc Hf eq_refl).
    unfold build_windows, at_call. exec. rewrite Hcheck by (first [assumption | reflexivity]).
    cbn [banner String.eqb Ascii.eqb Bool.eqb fst snd trace exit_status
         global_build_arch G].
    rewrite !printed_app, !commands_app, printed_logs, commands_logs.
    cbn [printed commands str_exn]. rewrite <- ?app_assoc. cbn [app].
    repeat split; reflexivity.
  - rewrite (run_calls_build_function E prog version build_type _ c _
               (build_macos E G) Hc Hf eq_refl).
    unfold build_macos, at_call. exec. rewrite Hcheck by (first [assumption | reflexivity]).
    cbn [banner String.eqb Ascii.eqb Bool.eqb fst snd trace exit_status].
    rewrite !printed_app, !commands_app, printed_logs, commands_logs.
    cbn [printed commands str_exn]. rewrite <- ?app_assoc. cbn [app].
    repeat split; reflexivity.
Qed.

Lemma missing_table_reported_as_invalid_argument_witness :
  exit_status (fst (run Sample2.surroundings
                      (command_line "build.py" "v10.9.0" "macos" ["arm64"])))
  = 1%Z.
Proof.
  apply (missing_table_reported_as_invalid_argument Sample2.surroundings
           "build.py" "v10.9.0" "macos" ["arm64"] Sample2.macos "build_macos" "archmaps"
           eq_refl eq_refl eq_refl).
Defined.

(** ** More on the container image run *)

Lemma count_build_commands E p v (P : string -> bool) (n : nat) (l : list arch_plan) :
  (forall a, length (List.filter P (plan_build_commands E p v a)) = n) ->
  length (List.filter P (concat (map (plan_build_commands E p v) l))) = n * length l.
Proof.
  intros H. induction l as [|a l IH]; cbn [map concat length List.filter]; [lia|].
  rewrite List.filter_app, length_app, H, IH. lia.
Qed.

Lemma count_push_commands (P : string -> bool) (b : bool) (l : list string) :
  (forall x, P (image_push_command x) = b) ->
  length (List.filter P (map image_push_command l)) = if b then length l else 0.
Proof.
  intros H. induction l as [|x l IH]; cbn [map List.filter length]; [destruct b; auto|].
  rewrite H. destruct b; cbn [length]; rewrite IH; reflexivity.
Qed.

(** X14.  Over a complete document a container image run builds exactly
    one image per declared architecture, tags each once for the second
    registry without building it again, and pushes each once; the
    references recorded for the second registry are those of the first
    behind [ghcr.io/], architecture by architecture. *)
Theorem one_image_per_architecture (E : env) (prog version build_type : string)
    (rest : list string) (p : docker_plan) :
  configured_function E build_type = Some "build_docker" ->
  plan_docker E build_type = Some p ->
  length (List.filter (String.prefix "docker build")
            (commands (trace (snd (run E (command_line prog version build_type rest))))))
  = length (docker_architectures E)
  /\ length (List.filter (String.prefix "docker image tag")
               (commands (trace (snd (run E (command_line prog version build_type rest))))))
     = length (docker_architectures E)
  /\ length (List.filter (String.prefix "docker push")
               (commands (trace (snd (run E (command_line prog version build_type rest))))))
     = length (docker_architectures E)
  /\ exists images,
       length images = length (docker_architectures E)
       /\ frame (snd (run E (command_line prog version build_type rest))) !! "images"
          = Some (PyList images)
       /\ frame (snd (run E (command_line prog version build_type rest))) !! "images_ghcr"
          = Some (PyList (map ghcr_reference images)).
Proof.
  intros Hf Hp. rewrite (docker_run E prog version build_type rest Hf).
  destruct (docker_run_stops E (version_handed E version) build_type
              (nth_error rest 0) (nth_error rest 1) p
              (map Log (master_note E version)) Hp)
    as (w' & Hrun & Hcmds & Hi & Hg & _).
  unfold at_call. rewrite Hrun. cbn [snd]. rewrite Hcmds, commands_logs, app_nil_l.
  rewrite <- (plan_covers_architectures E build_type p Hp), length_map.
  rewrite !List.filter_app, !length_app.
  repeat split.
  - rewrite (count_build_commands E p _ _ 1),
      (count_push_commands _ false) by (try intros [a [[[pa dn] q] i]]; reflexivity).
    simpl. rewrite ?Nat.add_0_r. reflexivity.
  - rewrite (count_build_commands E p _ _ 1),
      (count_push_commands _ false) by (try intros [a [[[pa dn] q] i]]; reflexivity).
    simpl. rewrite ?Nat.add_0_r. reflexivity.
  - rewrite (count_build_commands E p _ _ 0),
      (count_push_commands _ true) by (try intros [a [[[pa dn] q] i]]; reflexivity).
    unfold plan_images. rewrite length_map. simpl. rewrite ?Nat.add_0_r. reflexivity.
  - exists (plan_images E p (version_handed E version)).
    unfold plan_images at 1. rewrite length_map. auto.
Qed.

Lemma one_image_per_architecture_witness :
  length (List.filter (String.prefix "docker build")
            (commands (trace (snd (run (Sample.surroundings Sample.all_succeed)
                                     (command_line "build.py" "v10.9.0" "docker" []))))))
  = length (docker_architectures (Sample.surroundings Sample.all_succeed)).
Proof.
  apply (one_image_per_architecture (Sample.surroundings Sample.all_succeed)
           "build.py" "v10.9.0" "docker" [] Sample.plan eq_refl eq_refl).
Defined.

Ltac silent :=
  repeat match goal with
         | |- _ /\ _ => split
         | |- Forall _ (_ ++ _) => apply Forall_app
         | |- Forall _ (_ :: _) => constructor
         | |- Forall _ [] => constructor
         | |- _ => rewrite !commands_app
         | |- _ => progress cbn [commands frame trace stays_unpublished]
         | |- _ => progress unfold unpublished
         | |- _ => assumption
         | |- _ => reflexivity
         end.

Lemma docker_build_image_unpublished E sfx v df date a w :
  unpublished w ->
  stays_unpublished (docker_build_image E sfx v df date a w).
Proof.
  destruct w as [t fr]. unfold unpublished. cbn [trace]. intros Ht.
  unfold docker_build_image, docker_archmaps, docker_imagename. exec.
  repeat (split_match; exec); silent.
Qed.

(** The body of the loop stops on an architecture whose entry lacks one
    of its four names. *)
Lemma docker_build_image_incomplete E sfx v df date a w d am :
  Py.get (configurations E) "docker" = Some d ->
  archmaps d = Some am ->
  plan_arch am a = None ->
  exists e w', docker_build_image E sfx v df date a w = (Raise e, w').
Proof.
  intros Hd Ham Hpl. destruct w as [t fr]. unfold plan_arch, arch_fields in Hpl.
  unfold docker_build_image, docker_archmaps. exec. rewrite Hd. exec. rewrite Ham. exec.
  destruct (Py.get am a) as [[[pa|] [dn|] [q|] [i|]]|]; try discriminate; exec;
    eexists _, _; reflexivity.
Qed.

Lemma docker_build_loop_incomplete E sfx v df date d am (l : list string) :
  Py.get (configurations E) "docker" = Some d ->
  archmaps d = Some am ->
  Exists (fun a => plan_arch am a = None) l ->
  forall w,
    unpublished w ->
    exists e w',
      for_each l (docker_build_image E sfx v df date) w = (Raise e, w')
      /\ is_Exception e = true /\ unpublished w'.
Proof.
  intros Hd Ham Hex. induction Hex as [a l Ha | a l _ IH]; intros w Hw.
  - pose proof (docker_build_image_unpublished E sfx v df date a w Hw) as Hstay.
    destruct (docker_build_image_incomplete E sfx v df date a w d am Hd Ham Ha)
      as (e & w' & Hrun).
    cbn [for_each]. unfold bind. rewrite Hrun in Hstay |- *.
    exists e, w'. destruct Hstay. auto.
  - pose proof (docker_build_image_unpublished E sfx v df date a w Hw) as Hstay.
    cbn [for_each]. unfold bind.
    destruct (docker_build_image E sfx v df date a w) as [[[]|e] w1].
    + apply IH, Hstay.
    + exists e, w1. destruct Hstay. auto.
Qed.

(** X15.  When an architecture of the [docker] entry lacks one of its
    four names, a container image run stops in the loop that builds the
    images: it ends with status 1 and nothing has been published, no
    login, no push of an image and no command on a manifest, although the
    images of the architectures before the incomplete one were built. *)
Theorem incomplete_architecture_publishes_nothing (E : env)
    (prog version build_type : string) (rest : list string)
    (d : build_config) (am : Py.dict archmap) :
  configured_function E build_type = Some "build_docker" ->
  Py.get (configurations E) "docker" = Some d ->
  archmaps d = Some am ->
  mapM (plan_arch am) (Py.keys am) = None ->
  exit_status (fst (run E (command_line prog version build_type rest))) = 1%Z
  /\ Forall (fun cmd => publish_command cmd = false)
       (commands (trace (snd (run E (command_line prog version build_type rest))))).
Proof.
  intros Hf Hd Ham Hnone. rewrite (docker_run E prog version build_type rest Hf).
  apply configured_function_get in Hf as (c & Hc & Hf).
  apply mapM_None_1 in Hnone.
  unfold build_docker, docker_archmaps, at_call. rewrite release_flags_eq. exec.
  rewrite Hd. exec. rewrite Ham. exec. rewrite Hc. exec.
  destruct (dockerfile c) as [df|]; exec.
  2: { cbn [fst snd trace exit_status]. rewrite !commands_app, commands_logs.
       split; [reflexivity | repeat constructor]. }
  match goal with
  | |- context [for_each (Py.keys am) (docker_build_image E ?s ?v ?f ?dt) ?w1] =>
      destruct (docker_build_loop_incomplete E s v f dt d am (Py.keys am) Hd Ham Hnone w1)
        as (e & w' & Hrun & He & Hw')
  end.
  { unfold unpublished. cbn [trace]. rewrite !commands_app, commands_logs.
    repeat constructor. }
  rewrite Hrun. cbn [fst snd]. split; [|exact Hw'].
  destruct e; try reflexivity. discriminate.
Qed.

Lemma incomplete_architecture_publishes_nothing_witness :
  exit_status (fst (run Sample3.surroundings
                      (command_line "build.py" "v10.9.0" "docker" [])))
  = 1%Z.
Proof.
  apply (incomplete_architecture_publishes_nothing Sample3.surroundings
           "build.py" "v10.9.0" "docker" [] Sample3.docker
           [("amd64", Sample.amd64); ("armhf", Sample3.armhf)] eq_refl eq_refl eq_refl
           eq_refl).
Defined.

(** X16.  The statements after the loop over [ghcr_images], entered with
    the two lists of references: for each tag, the dated one, the one of
    the version and [latest] when the version holds a [v], the one of the
    version and [unstable] otherwise, a manifest is created against each
    registry from the references of that registry alone; then every
    manifest is pushed with [--purge] to the first registry, then to the
    second, in the order of the tags. *)
Theorem manifests_created_then_pushed (E : env) (version : string) (d : build_config)
    (base : string) (t : list event) (fr : gmap string pyval)
    (images ghcr : list string) :
  Py.get (configurations E) "docker" = Some d ->
  imagename d = Some base ->
  fr !! "images" = Some (PyList images) ->
  fr !! "images_ghcr" = Some (PyList ghcr) ->
  exists w',
    docker_publish_manifests E (Py.str_in "v" version) (negb (Py.str_in "v" version))
      (Py.str_in "v" version) (strip_release_marker version) (now_stamp E) (World t fr)
    = (Ok tt, w')
    /\ commands (trace w')
       = (commands t
          ++ concat (map (fun tag => [ manifest_create_command "docker.io" base tag images;
                                       manifest_create_command "ghcr.io" base tag ghcr ])
                       (manifest_tags E version))
          ++ map (manifest_push_command "docker.io")
               (map (fun tag => (base ++ ":" ++ tag)%string) (manifest_tags E version))
          ++ map (manifest_push_command "ghcr.io")
               (map (fun tag => (base ++ ":" ++ tag)%string) (manifest_tags E version)))%list.
Proof.
  apply docker_publish_manifests_run.
Qed.

Lemma manifests_created_then_pushed_witness :
  exists w',
    docker_publish_manifests (Sample.surroundings Sample.all_succeed)
      (Py.str_in "v" "10.9.0") (negb (Py.str_in "v" "10.9.0")) (Py.str_in "v" "10.9.0")
      (strip_release_marker "10.9.0") (now_stamp (Sample.surroundings Sample.all_succeed))
      (World [] Sample3.frame_after_builds)
    = (Ok tt, w').
Proof.
  destruct (manifests_created_then_pushed (Sample.surroundings Sample.all_succeed)
              "10.9.0" Sample.docker "jellyfin/jellyfin" [] Sample3.frame_after_builds
              ["jellyfin/jellyfin:10.9.0-amd64"] ["ghcr.io/jellyfin/jellyfin:10.9.0-amd64"]
              eq_refl eq_refl eq_refl eq_refl) as (w' & Hrun & _).
  exists w'. exact Hrun.
Defined.

(** X17.  The references of the images carry the date of the run exactly
    when the version handed to [build_docker] holds a [v]: over a
    complete document the references recorded for the first registry are,
    in the order of the architectures of the document, the image name,
    the version without its marker and the architecture, followed by the
    date for such a version and by nothing otherwise. *)
Theorem image_tags_dated_iff_stable (E : env) (prog version build_type : string)
    (rest : list string) (p : docker_plan) :
  configured_function E build_type = Some "build_docker" ->
  plan_docker E build_type = Some p ->
  frame (snd (run E (command_line prog version build_type rest))) !! "images"
  = Some (PyList
            (if Py.str_in "v" (version_handed E version)
             then map (fun a => (plan_base p ++ ":"
                                 ++ strip_release_marker (version_handed E version)
                                 ++ "-" ++ a ++ "." ++ now_stamp E)%string)
                    (docker_architectures E)
             else map (fun a => (plan_base p ++ ":"
                                 ++ strip_release_marker (version_handed E version)
                                 ++ "-" ++ a)%string)
                    (docker_architectures E))).
Proof.
  intros Hf Hp. rewrite (docker_run E prog version build_type rest Hf).
  destruct (docker_run_stops E (version_handed E version) build_type
              (nth_error rest 0) (nth_error rest 1) p
              (map Log (master_note E version)) Hp)
    as (w' & Hrun & _ & Hi & _).
  unfold at_call. rewrite Hrun. cbn [snd]. rewrite Hi.
  rewrite <- (plan_covers_architectures E build_type p Hp).
  unfold plan_images, plan_image, docker_tag.
  destruct (Py.str_in "v" (version_handed E version)); rewrite map_map; reflexivity.
Qed.

Lemma image_tags_dated_iff_stable_witness :
  frame (snd (run (Sample.surroundings Sample.all_succeed)
                (command_line "build.py" "master" "docker" []))) !! "images"
  = Some (PyList ["jellyfin/jellyfin:2024021600-amd64"; "jellyfin/jellyfin:2024021600-arm64"]).
Proof.
  apply (image_tags_dated_iff_stable (Sample.surroundings Sample.all_succeed)
           "build.py" "master" "docker" [] Sample.plan eq_refl eq_refl).
Defined.

(** X18.  The tables [releases] and [cross-gcc] have to agree: an OS
    version that is a key of [releases] and not of [cross-gcc] passes the
    checks of the arguments, whatever value other than a null the two
    tables of the checks bind, and the package build then stops on the
    [KeyError] of that version, not caught, before the changelog is
    touched. *)
Theorem package_build_needs_cross_gcc (E : env) (prog version build_type arch os : string)
    (c : build_config) (rel : Py.dict Py.value) (gcc : Py.dict string)
    (am : Py.dict archmap) (os_version package_arch : Py.value) (df : string)
    (entry : archmap) :
  Py.get (configurations E) build_type = Some c ->
  build_function c = Some "build_package_deb" ->
  releases c = Some rel ->
  Py.get rel os = Some os_version ->
  Py.is_None os_version = false ->
  archmaps c = Some am ->
  Py.get am arch = Some entry ->
  PACKAGE_ARCH entry = Some package_arch ->
  Py.is_None package_arch = false ->
  dockerfile c = Some df ->
  cross_gcc c = Some gcc ->
  Py.get gcc os = None ->
  run E (command_line prog version build_type [arch; os])
  = (Raise (KeyError (Py.repr os)),
     World (map Log (master_note E version
                     ++ banner "build_package_deb" build_type (Some arch))) ∅).
Proof.
  intros Hc Hf Hrel Hos Hosv Ham Hentry Hpa Hpav Hdf Hgcc Hgv. unfold command_line.
  rewrite (run_calls_build_function E prog version build_type _ c _
             (build_package_deb E) Hc Hf eq_refl).
  cbn [nth_error].
  pose proof (has_key_of_get _ _ _ Hc) as Hkc.
  pose proof (has_key_of_get _ _ _ Hos) as Hkos.
  pose proof (has_key_of_get _ _ _ Hentry) as Hka.
  unfold build_package_deb, at_call. exec.
  repeat (first [ rewrite Hkc | rewrite Hc | rewrite Hrel | rewrite Hkos | rewrite Hos
                | rewrite Hosv | rewrite Ham | rewrite Hka | rewrite Hentry | rewrite Hpa
                | rewrite Hpav | rewrite Hdf | rewrite Hgcc | rewrite Hgv ]; exec).
  cbn [banner String.eqb Ascii.eqb Bool.eqb]. rewrite map_app. cbn [map].
  rewrite <- !app_assoc. reflexivity.
Qed.

Lemma package_build_needs_cross_gcc_witness :
  run Sample3.surroundings (command_line "build.py" "v10.9.0" "debian" ["amd64"; "trixie"])
  = (Raise (KeyError "'trixie'"),
     World (map Log (master_note Sample3.surroundings "v10.9.0"
                     ++ banner "build_package_deb" "debian" (Some "amd64"))) ∅).
Proof.
  apply (package_build_needs_cross_gcc Sample3.surroundings
           "build.py" "v10.9.0" "debian" "amd64" "trixie" Sample3.debian
           [("bookworm", Py.Str "12"); ("trixie", Py.Str "13")] [("bookworm", "12")]
           [("amd64", Sample.amd64)] (Py.Str "13") (Py.Str "amd64")
           "debian/docker/Dockerfile" Sample.amd64
           eq_refl eq_refl eq_refl eq_refl eq_refl eq_refl eq_refl eq_refl eq_refl eq_refl
           eq_refl eq_refl).
Defined.

(** X19.  A release written without quotes stops the package build:
    when [releases] binds the OS version to a value that is neither a
    string nor a null, a number for one, the checks of the arguments
    pass and the build stops when it asks that value for its [replace],
    on the [AttributeError] or the [TypeError] of the type of the value,
    not caught, after the template was read and before the changelog is
    written or a command issued. *)
Theorem release_must_be_a_string (E : env) (prog version build_type arch os : string)
    (c : build_config) (rel : Py.dict Py.value) (gcc : Py.dict string)
    (am : Py.dict archmap) (t : Py.type) (rendering : string) (package_arch : Py.value)
    (df gcc_version template : string) (entry : archmap) :
  Py.get (configurations E) build_type = Some c ->
  build_function c = Some "build_package_deb" ->
  releases c = Some rel ->
  Py.get rel os = Some (Py.Other t rendering) ->
  archmaps c = Some am ->
  Py.get am arch = Some entry ->
  PACKAGE_ARCH entry = Some package_arch ->
  Py.is_None package_arch = false ->
  dockerfile c = Some df ->
  cross_gcc c = Some gcc ->
  Py.get gcc os = Some gcc_version ->
  read_file E (repo_root_dir E ++ "/debian/changelog.in") = Some template ->
  run E (command_line prog version build_type [arch; os])
  = (Raise (replace_refused t),
     World (map Log (master_note E version
                     ++ banner "build_package_deb" build_type (Some arch))) ∅).
Proof.
  intros Hc Hf Hrel Hos Ham Hentry Hpa Hpav Hdf Hgcc Hgv Htpl. unfold command_line.
  rewrite (run_calls_build_function E prog version build_type _ c _
             (build_package_deb E) Hc Hf eq_refl).
  cbn [nth_error].
  pose proof (has_key_of_get _ _ _ Hc) as Hkc.
  pose proof (has_key_of_get _ _ _ Hos) as Hkos.
  pose proof (has_key_of_get _ _ _ Hentry) as Hka.
  unfold build_package_deb, at_call. exec.
  repeat (first [ rewrite Hkc | rewrite Hc | rewrite Hrel | rewrite Hkos | rewrite Hos
                | rewrite Ham | rewrite Hka | rewrite Hentry | rewrite Hpa
                | rewrite Hpav | rewrite Hdf | rewrite Hgcc | rewrite Hgv | rewrite Htpl
                | progress cbn [Py.is_None] ]; exec).
  cbn [banner String.eqb Ascii.eqb Bool.eqb]. rewrite map_app. cbn [map].
  rewrite <- !app_assoc. reflexivity.
Qed.

Lemma release_must_be_a_string_witness :
  run Sample4.surroundings (command_line "build.py" "v10.9.0" "debian" ["amd64"; "bookworm"])
  = (Raise (replace_refused Py.TInt),
     World (map Log (master_note Sample4.surroundings "v10.9.0"
                     ++ banner "build_package_deb" "debian" (Some "amd64"))) ∅).
Proof.
  apply (release_must_be_a_string Sample4.surroundings
           "build.py" "v10.9.0" "debian" "amd64" "bookworm" Sample4.debian
           [("bookworm", Py.Other Py.TInt "12")] [("bookworm", "12")]
           [("amd64", Sample.amd64)] Py.TInt "12" (Py.Str "amd64")
           "debian/docker/Dockerfile" "12" "changelog" Sample.amd64
           eq_refl eq_refl eq_refl eq_refl eq_refl eq_refl eq_refl eq_refl eq_refl eq_refl
           eq_refl eq_refl).
Defined.
